(** * Newton-Raphson calculator (komnum): the iteration engine of the page

    The component [Home] of [src/app/page.tsx] keeps the form fields in React
    state and runs [calculateNewtonRaphson] on them.  This development embeds
    that function, and the other copy of the same function found in the
    second source file, and states the properties of the iteration trace.

    JavaScript numbers are IEEE 754 binary64 values: they are modelled by the
    primitive [float] type, whose operations are the round-to-nearest-even ones
    of the standard.  Strings are modelled by [string], one character per code
    unit (code units above 255 do not occur in the model). *)

From Stdlib Require Import ZArith List String Ascii Bool Lia Floats.
From Stdlib Require Import DecimalString.
Import ListNotations.

Local Open Scope string_scope.

(** ** JavaScript built-ins used by the page *)

Module JS.

Definition number := float.

(** [ToBoolean] on a number: [NaN], [+0] and [-0] are falsy. *)
Definition ToBoolean (v : number) : bool :=
  negb (PrimFloat.is_nan v || PrimFloat.is_zero v).

(** [a || b] on numbers. *)
Definition or_else (a b : number) : number :=
  if ToBoolean a then a else b.

Definition Math_abs (v : number) : number := PrimFloat.abs v.

(** [Number.isFinite]. *)
Definition isFinite (v : number) : bool :=
  match Prim2SF v with
  | S754_zero _ | S754_finite _ _ _ => true
  | S754_infinity _ | S754_nan => false
  end.

Definition isNaN (v : number) : bool :=
  match Prim2SF v with
  | S754_nan => true
  | _ => false
  end.

Local Open Scope Z_scope.

(** The binary64 value nearest to the integer [z] (ties to even). *)
Definition of_Z_nearest (z : Z) : number :=
  SF2Prim (binary_normalize prec emax z 0 false).

(** The binary64 value nearest to [p / q] (ties to even). *)
Definition of_ratio_nearest (p q : positive) : number :=
  SF2Prim (SFdiv prec emax (S754_finite false p 0) (S754_finite false q 0)).

(** *** Decimal digits *)

(** The decimal digits of a non-negative integer, ["0"] for zero. *)
Definition decimal (z : Z) : string :=
  NilZero.string_of_uint (N.to_uint (Z.to_N z)).

Definition digit_value (c : ascii) : option Z :=
  let n := Z.of_nat (nat_of_ascii c) in
  if (48 <=? n) && (n <=? 57) then Some (n - 48) else None.

(** The longest run of decimal digits at the head of [s], and what follows. *)
Fixpoint take_digits (s : string) : list Z * string :=
  match s with
  | String c r =>
      match digit_value c with
      | Some d => let '(ds, rest) := take_digits r in (d :: ds, rest)
      | None => ([], s)
      end
  | EmptyString => ([], s)
  end.

Definition digits_value (ds : list Z) : Z :=
  fold_left (fun acc d => 10 * acc + d) ds 0.

(** *** [parseFloat] *)

(** [StrWhiteSpaceChar] among the code units of the model: TAB, LF, VT, FF,
    CR, SP and NBSP. *)
Definition is_white_space (c : ascii) : bool :=
  let n := nat_of_ascii c in
  (((9 <=? n) && (n <=? 13)) || (n =? 32) || (n =? 160))%nat.

Fixpoint trim_start (s : string) : string :=
  match s with
  | String c r => if is_white_space c then trim_start r else s
  | EmptyString => s
  end.

(** [ExponentPart], when one stands at the head of [s]: its value, else 0. *)
Definition exponent_part (s : string) : Z :=
  match s with
  | String c r =>
      if (Ascii.eqb c "e" || Ascii.eqb c "E")%bool then
        let '(sg, r') :=
          match r with
          | String "+"%char r' => (1, r')
          | String "-"%char r' => (-1, r')
          | _ => (1, r)
          end in
        match fst (take_digits r') with
        | [] => 0
        | ds => sg * digits_value ds
        end
      else 0
  | EmptyString => 0
  end.

(** The number denoted by the digits [D] scaled by [10^E], with its sign: the
    mathematical value rounded to the nearest binary64 value. *)
Definition decimal_value (neg : bool) (D E : Z) : number :=
  match D with
  | Zpos p =>
      let v := match E with
               | Zneg q => of_ratio_nearest p (Pos.pow 10 q)
               | _ => of_Z_nearest (D * 10 ^ E)
               end in
      if neg then PrimFloat.opp v else v
  | _ => if neg then neg_zero else zero
  end.

(** [parseFloat(s)]: leading white space is skipped, the longest prefix that
    is a [StrDecimalLiteral] is converted, and [NaN] is returned when there is
    none. *)
Definition parseFloat (s : string) : number :=
  let t := trim_start s in
  let '(neg, u) :=
    match t with
    | String "+"%char r => (false, r)
    | String "-"%char r => (true, r)
    | _ => (false, t)
    end in
  if String.prefix "Infinity" u then (if neg then neg_infinity else infinity)
  else
    let '(ip, r1) := take_digits u in
    let '(fp, r2) :=
      match r1 with
      | String "."%char r => take_digits r
      | _ => ([], r1)
      end in
    match ip, fp with
    | [], [] => nan
    | _, _ =>
        decimal_value neg (digits_value (ip ++ fp))
          (exponent_part r2 - Z.of_nat (List.length fp))
    end.

(** *** [Number.prototype.toString] for values of at least [10^21] *)

Definition round_trips (x : number) (z : Z) : bool :=
  PrimFloat.eqb (of_Z_nearest z) x.

(** The digits [s] and the exponent [n] of the shortest decimal [s * 10^(n-k)]
    that reads back as [x], whose exact value is the integer [v] of [n0]
    digits; among the two candidates of one length the closer to [v] wins. *)
Fixpoint shortest_digits (fuel : nat) (k n0 v : Z) (x : number) : Z * Z :=
  match fuel with
  | O => (v, n0)
  | S fuel' =>
      let p := 10 ^ (n0 - k) in
      let lo := v / p in
      let hi := lo + 1 in
      let ok_lo := round_trips x (lo * p) in
      let ok_hi := round_trips x (hi * p) in
      let up := if hi =? 10 ^ k then (10 ^ (k - 1), n0 + 1) else (hi, n0) in
      if ok_lo && ok_hi then
        match (v - lo * p) ?= (hi * p - v) with
        | Lt => (lo, n0)
        | Gt => up
        | Eq => if Z.even lo then (lo, n0) else up
        end
      else if ok_lo then (lo, n0)
      else if ok_hi then up
      else shortest_digits fuel' (k + 1) n0 v x
  end.

(** [Number::toString] of a positive integer value [v >= 10^21] held by [x]:
    the exponential form. *)
Definition toString_large (x : number) (v : Z) : string :=
  let n0 := Z.of_nat (String.length (decimal v)) in
  let '(s, n) := shortest_digits 17 1 n0 v x in
  let ds := decimal s in
  let e := "e+" ++ decimal (n - 1) in
  match ds with
  | String d EmptyString => ds ++ e
  | String d rest => String d ("." ++ rest) ++ e
  | EmptyString => e
  end.

(** *** [Number.prototype.toFixed] *)

Fixpoint zeros (n : nat) : string :=
  match n with
  | O => ""
  | S n' => String "0" (zeros n')
  end.

(** The digits of [n] with a decimal point before the last [f] of them. *)
Definition fixed_point (n : Z) (f : nat) : string :=
  let m := decimal n in
  match f with
  | O => m
  | _ =>
      let k := String.length m in
      let m' := if (k <=? f)%nat then zeros (f + 1 - k) ++ m else m in
      let k' := String.length m' in
      substring 0 (k' - f) m' ++ "." ++ substring (k' - f) f m'
  end.

(** The integer [n] for which [n / 10^f] is closest to [m * 2^e], the larger
    one of two. *)
Definition scaled_nearest (m : positive) (e : Z) (f : nat) : Z :=
  let t := Zpos m * 10 ^ Z.of_nat f in
  match e with
  | Zneg q => (2 * t + 2 ^ Zpos q) / 2 ^ (Zpos q + 1)
  | _ => t * 2 ^ e
  end.

(** [x.toFixed(fractionDigits)], for [fractionDigits] at most 100 (the page
    always passes 2). *)
Definition toFixed (x : number) (fractionDigits : nat) : string :=
  match Prim2SF x with
  | S754_nan => "NaN"
  | S754_infinity s => if s then "-Infinity" else "Infinity"
  | S754_zero _ => fixed_point 0 fractionDigits
  | S754_finite s m e =>
      let sign := if s then "-" else "" in
      let big := match e with
                 | Zneg _ => false
                 | _ => 10 ^ 21 <=? Zpos m * 2 ^ e
                 end in
      if big then sign ++ toString_large (PrimFloat.abs x) (Zpos m * 2 ^ e)
      else sign ++ fixed_point (scaled_nearest m e fractionDigits) fractionDigits
  end.

(** What [toFixed] prints for a value that is not finite. *)
Definition non_finite_text (s : string) : Prop :=
  s = "NaN" \/ s = "Infinity" \/ s = "-Infinity".

End JS.

Import JS.

(** ** Exceptions and the mathjs capability *)

(** A value thrown inside the [try] block: an [Error] instance with its
    message, or any other value with its [String(...)] form. *)
Inductive thrown : Type :=
  | ErrorInstance (message : string)
  | OtherValue (text : string).

(** A computation that returns a value or throws. *)
Inductive Exc (A : Type) : Type :=
  | Return (a : A)
  | Throw (err : thrown).

Arguments Return {A} a.
Arguments Throw {A} err.

Definition bind {A B : Type} (c : Exc A) (k : A -> Exc B) : Exc B :=
  match c with
  | Return a => k a
  | Throw err => Throw err
  end.

Declare Scope exc_scope.
Delimit Scope exc_scope with exc.
Notation "x <- c ;; k" := (bind c (fun x => k))
  (at level 61, c at next level, right associativity) : exc_scope.

(** The two functions imported from mathjs.  [evaluate expr x] is
    [evaluate(expr, { x })], a number as the page declares it;
    [derivative expr v] is [derivative(expr, v).toString()].  Both throw on a
    malformed expression, and [evaluate] on an evaluation error. *)
Record MathJS : Type := {
  evaluate : string -> number -> Exc number;
  derivative : string -> string -> Exc string
}.

(** The [method] selector of the form. *)
Inductive Method : Type := standard | modified.

Definition formula_standard : string :=
  "x_{i+1} = x_i - \frac{f(x_i)}{f'(x_i)}".

Definition formula_modified : string :=
  "x_{i+1} = x_i - \frac{f(x_i) \cdot f'(x_i)}{[f'(x_i)]^2 - f(x_i) \cdot f''(x_i)}".

(** The text shown by the [catch] clause. *)
Definition catch_message (err : thrown) : string :=
  "Error: " ++ match err with
               | ErrorInstance message => message
               | OtherValue text => text
               end.

(** ** The formulas of the specification *)

Module Spec.

Local Open Scope float_scope.

Section Formulas.

Variable Math_pow : number -> number -> number.

(** The update of the selected method, on full-precision values. *)
Definition x_next (m : Method) (x fx fpx fppx : number) : number :=
  match m with
  | standard => x - fx / fpx
  | modified => x - (fx * fpx) / (Math_pow fpx 2 - fx * fppx)
  end.

(** The denominator of the update. *)
Definition update_denominator (m : Method) (fx fpx fppx : number) : number :=
  match m with
  | standard => fpx
  | modified => Math_pow fpx 2 - fx * fppx
  end.

End Formulas.

(** Approximate relative error, in percent: the new iterate is the
    denominator. *)
Definition Ea (x x_next : number) : number :=
  abs (x_next - x) / abs x_next * 100.

(** True relative error, in percent. *)
Definition Et (trueRoot x_next : number) : number :=
  abs (trueRoot - x_next) / abs trueRoot * 100.

End Spec.

(** [array.push(a)]. *)
Definition push {A : Type} (array : list A) (a : A) : list A :=
  (array ++ [a])%list.

(** ** The page: [src/app/page.tsx] *)

Module Page.

Record IterationResult : Type := {
  iteration : Z;
  x : string;
  fx : string;
  fpx : string;
  fppx : option string;
  x_next : string;
  error : string;
  et : string;
  formula : string
}.

(** The React state of [Home].  [iterations] holds an integer (it is set by
    [parseInt] from a numeric field), and the loop counter [i] runs over the
    integers [0, 1, ...] below it, which binary64 holds exactly for counts
    below [2^53].  The other value [parseInt] can give, [NaN], makes the guard
    [i < iterations] false at once, as any count below 1 does.  [st_error] is
    the state variable [error], renamed apart from the field [error] of a
    record. *)
Record HomeState : Type := {
  equation : string;
  initialGuess : string;
  iterations : Z;
  method : Method;
  results : list IterationResult;
  loading : bool;
  st_error : string;
  trueRoot : string
}.

Definition setResults (v : list IterationResult) (st : HomeState) : HomeState :=
  {| equation := equation st; initialGuess := initialGuess st;
     iterations := iterations st; method := method st; results := v;
     loading := loading st; st_error := st_error st; trueRoot := trueRoot st |}.

Definition setLoading (v : bool) (st : HomeState) : HomeState :=
  {| equation := equation st; initialGuess := initialGuess st;
     iterations := iterations st; method := method st; results := results st;
     loading := v; st_error := st_error st; trueRoot := trueRoot st |}.

Definition setError (v : string) (st : HomeState) : HomeState :=
  {| equation := equation st; initialGuess := initialGuess st;
     iterations := iterations st; method := method st; results := results st;
     loading := loading st; st_error := v; trueRoot := trueRoot st |}.

Definition setEquation (v : string) (st : HomeState) : HomeState :=
  {| equation := v; initialGuess := initialGuess st;
     iterations := iterations st; method := method st; results := results st;
     loading := loading st; st_error := st_error st; trueRoot := trueRoot st |}.

Definition setTrueRoot (v : string) (st : HomeState) : HomeState :=
  {| equation := equation st; initialGuess := initialGuess st;
     iterations := iterations st; method := method st; results := results st;
     loading := loading st; st_error := st_error st; trueRoot := v |}.

Section Engine.

Variable mathjs : MathJS.

(** [Math.pow], of the JavaScript runtime. *)
Variable Math_pow : number -> number -> number.

Local Open Scope exc_scope.
Local Open Scope float_scope.

Section Run.

(** The fields read by one run. *)
Variable st : HomeState.

Definition f (x : number) : Exc number :=
  evaluate mathjs (equation st) x.

Definition fPrime (x : number) : Exc number :=
  d <- derivative mathjs (equation st) "x" ;;
  evaluate mathjs d x.

Definition fDoublePrime (x : number) : Exc number :=
  d <- derivative mathjs (equation st) "x" ;;
  dd <- derivative mathjs d "x" ;;
  evaluate mathjs dd x.

Definition calculateError (current previous : number) : number :=
  Math_abs ((current - previous) / current) * 100.

Definition trueRootValue : number :=
  or_else (parseFloat (trueRoot st)) 0.

(** One pass through the body of the [for] loop, with counter [i]: from the
    variables [x0] and [iterationResults] to their values at the end of the
    pass. *)
Definition loop_body (i : Z) (vars : number * list IterationResult)
  : Exc (number * list IterationResult) :=
  let '(x0, iterationResults) := vars in
  fx <- f x0 ;;
  fpx <- fPrime x0 ;;
  fppx <- fDoublePrime x0 ;;
  match method st with
  | standard =>
      let x1 := x0 - fx / fpx in
      let et := Math_abs ((trueRootValue - x1) / trueRootValue) * 100 in
      let ea := calculateError x1 x0 in
      Return (x1,
              push iterationResults
               {| iteration := i + 1;
                  x := toFixed x0 2;
                  fx := toFixed fx 2;
                  fpx := toFixed fpx 2;
                  fppx := None;
                  x_next := toFixed x1 2;
                  error := toFixed ea 2 ++ "%";
                  et := toFixed et 2 ++ "%";
                  formula := formula_standard |})
  | modified =>
      let numerator := fx * fpx in
      let denominator := Math_pow fpx 2 - fx * fppx in
      let x1 := x0 - numerator / denominator in
      let et := Math_abs ((trueRootValue - x1) / trueRootValue) * 100 in
      let ea := calculateError x1 x0 in
      Return (x1,
              push iterationResults
               {| iteration := i + 1;
                  x := toFixed x0 2;
                  fx := toFixed fx 2;
                  fpx := toFixed fpx 2;
                  fppx := Some (toFixed fppx 2);
                  x_next := toFixed x1 2;
                  error := toFixed ea 2 ++ "%";
                  et := toFixed et 2 ++ "%";
                  formula := formula_modified |})
  end.

(** [for (let i = ...; i < iterations; i++) body], with [n] passes left. *)
Fixpoint for_loop (n : nat) (i : Z) (vars : number * list IterationResult)
  : Exc (number * list IterationResult) :=
  match n with
  | O => Return vars
  | S n' => vars' <- loop_body i vars ;; for_loop n' (i + 1)%Z vars'
  end.

(** The loop variables after the first [k] passes of a run. *)
Definition loop_vars (k : nat) : Exc (number * list IterationResult) :=
  for_loop k 0%Z (parseFloat (initialGuess st), []).

(** The [try] block up to the argument of [setResults]. *)
Definition try_block : Exc (list IterationResult) :=
  vars <- loop_vars (Z.to_nat (iterations st)) ;;
  Return (snd vars).

(** [calculateNewtonRaphson]: the state after the handler has run. *)
Definition calculateNewtonRaphson : HomeState :=
  let st1 := setError "" (setLoading true st) in
  let st2 := match try_block with
             | Return iterationResults => setResults iterationResults st1
             | Throw err => setError (catch_message err) st1
             end in
  setLoading false st2.

End Run.

End Engine.

End Page.

(** ** The full-precision trace of a run of the page *)

Module Trace.

Section Trace.

Variable mathjs : MathJS.
Variable Math_pow : number -> number -> number.

(** The iterate held by [x0] when pass [k] starts. *)
Definition x0_entering (st : Page.HomeState) (k : nat) : Exc number :=
  bind (Page.loop_vars mathjs Math_pow st k) (fun vars => Return (fst vars)).

(** The record pushed by a pass, from the full-precision values of the
    pass. *)
Definition shown (st : Page.HomeState) (i : Z) (x0 fx fpx fppx : number)
  : Page.IterationResult :=
  let x1 := Spec.x_next Math_pow (Page.method st) x0 fx fpx fppx in
  {| Page.iteration := i + 1;
     Page.x := toFixed x0 2;
     Page.fx := toFixed fx 2;
     Page.fpx := toFixed fpx 2;
     Page.fppx := match Page.method st with
                  | standard => None
                  | modified => Some (toFixed fppx 2)
                  end;
     Page.x_next := toFixed x1 2;
     Page.error := toFixed (Spec.Ea x0 x1) 2 ++ "%";
     Page.et := toFixed (Spec.Et (Page.trueRootValue st) x1) 2 ++ "%";
     Page.formula := match Page.method st with
                     | standard => formula_standard
                     | modified => formula_modified
                     end |}.

(** The evaluator returns at every iterate that the first [n] passes reach. *)
Definition evaluator_succeeds (st : Page.HomeState) (n : nat) : Prop :=
  forall k x0, (k < n)%nat -> x0_entering st k = Return x0 ->
    exists fx fpx fppx,
      Page.f mathjs st x0 = Return fx
      /\ Page.fPrime mathjs st x0 = Return fpx
      /\ Page.fDoublePrime mathjs st x0 = Return fppx.

End Trace.

End Trace.

(** ** The other copy of the page (second source file)

    The same component without the true-error column.  It rounds every
    step, as its note on screen says: the values shown and the iterate
    carried to the next pass go through [parseFloat(v.toFixed(2))]. *)

Module OtherPage.

Record IterationResult : Type := {
  iteration : Z;
  x : string;
  fx : string;
  fpx : string;
  fppx : option string;
  x_next : string;
  error : string;
  formula : string
}.

Record HomeState : Type := {
  equation : string;
  initialGuess : string;
  iterations : Z;
  method : Method;
  results : list IterationResult;
  loading : bool;
  st_error : string
}.

Definition setResults (v : list IterationResult) (st : HomeState) : HomeState :=
  {| equation := equation st; initialGuess := initialGuess st;
     iterations := iterations st; method := method st; results := v;
     loading := loading st; st_error := st_error st |}.

Definition setLoading (v : bool) (st : HomeState) : HomeState :=
  {| equation := equation st; initialGuess := initialGuess st;
     iterations := iterations st; method := method st; results := results st;
     loading := v; st_error := st_error st |}.

Definition setError (v : string) (st : HomeState) : HomeState :=
  {| equation := equation st; initialGuess := initialGuess st;
     iterations := iterations st; method := method st; results := results st;
     loading := loading st; st_error := v |}.

Section Engine.

Variable mathjs : MathJS.
Variable Math_pow : number -> number -> number.

Local Open Scope exc_scope.
Local Open Scope float_scope.

Section Run.

Variable st : HomeState.

Definition f (x : number) : Exc number :=
  evaluate mathjs (equation st) x.

Definition fPrime (x : number) : Exc number :=
  d <- derivative mathjs (equation st) "x" ;;
  evaluate mathjs d x.

Definition fDoublePrime (x : number) : Exc number :=
  d <- derivative mathjs (equation st) "x" ;;
  dd <- derivative mathjs d "x" ;;
  evaluate mathjs dd x.

Definition calculateError (current previous : number) : number :=
  Math_abs ((current - previous) / current) * 100.

Definition loop_body (i : Z) (vars : number * list IterationResult)
  : Exc (number * list IterationResult) :=
  let '(x0, iterationResults) := vars in
  v <- f x0 ;;
  let fx := parseFloat (toFixed v 2) in
  v <- fPrime x0 ;;
  let fpx := parseFloat (toFixed v 2) in
  v <- fDoublePrime x0 ;;
  let fppx := parseFloat (toFixed v 2) in
  match method st with
  | standard =>
      a <- f x0 ;;
      b <- fPrime x0 ;;
      let x1 := x0 - a / b in
      let x1 := parseFloat (toFixed x1 2) in
      let et := calculateError x1 x0 in
      Return (x1,
              push iterationResults
               {| iteration := i + 1;
                  x := toFixed x0 2;
                  fx := toFixed fx 2;
                  fpx := toFixed fpx 2;
                  fppx := None;
                  x_next := toFixed x1 2;
                  error := toFixed et 2 ++ "%";
                  formula := formula_standard |})
  | modified =>
      a <- f x0 ;;
      b <- fPrime x0 ;;
      let numerator := a * b in
      b' <- fPrime x0 ;;
      a' <- f x0 ;;
      c <- fDoublePrime x0 ;;
      let denominator := Math_pow b' 2 - a' * c in
      let x1 := x0 - numerator / denominator in
      let x1 := parseFloat (toFixed x1 2) in
      let et := calculateError x1 x0 in
      Return (x1,
              push iterationResults
               {| iteration := i + 1;
                  x := toFixed x0 2;
                  fx := toFixed fx 2;
                  fpx := toFixed fpx 2;
                  fppx := Some (toFixed fppx 2);
                  x_next := toFixed x1 2;
                  error := toFixed et 2 ++ "%";
                  formula := formula_modified |})
  end.

Fixpoint for_loop (n : nat) (i : Z) (vars : number * list IterationResult)
  : Exc (number * list IterationResult) :=
  match n with
  | O => Return vars
  | S n' => vars' <- loop_body i vars ;; for_loop n' (i + 1)%Z vars'
  end.

Definition loop_vars (k : nat) : Exc (number * list IterationResult) :=
  for_loop k 0%Z (parseFloat (initialGuess st), []).

Definition try_block : Exc (list IterationResult) :=
  vars <- loop_vars (Z.to_nat (iterations st)) ;;
  Return (snd vars).

Definition calculateNewtonRaphson : HomeState :=
  let st1 := setError "" (setLoading true st) in
  let st2 := match try_block with
             | Return iterationResults => setResults iterationResults st1
             | Throw err => setError (catch_message err) st1
             end in
  setLoading false st2.

End Run.

End Engine.

End OtherPage.

(** ** A stub of the mathjs capability

    It knows the expressions of the examples and their derivatives in the
    textual form mathjs prints, and throws on any other text. *)

Module Stub.

Local Open Scope float_scope.

Definition evaluate (expr : string) (x : number) : Exc number :=
  if String.eqb expr "x^2 - 4" then Return (x * x - 4)
  else if String.eqb expr "2 * x" then Return (2 * x)
  else if String.eqb expr "x" then Return x
  else if String.eqb expr "2" then Return 2
  else if String.eqb expr "1" then Return 1
  else if String.eqb expr "0" then Return 0
  else Throw (ErrorInstance ("Undefined symbol " ++ expr)).

Definition derivative (expr : string) (variable : string) : Exc string :=
  if String.eqb expr "x^2 - 4" then Return "2 * x"
  else if String.eqb expr "2 * x" then Return "2"
  else if String.eqb expr "x" then Return "1"
  else if String.eqb expr "2" then Return "0"
  else if String.eqb expr "1" then Return "0"
  else if String.eqb expr "0" then Return "0"
  else Throw (ErrorInstance ("Undefined symbol " ++ expr)).

Definition mathjs : MathJS :=
  Build_MathJS evaluate derivative.

(** A capability that differentiates the expression of the form but throws
    on the text of a derivative. *)
Definition derivative_once (expr : string) (variable : string) : Exc string :=
  if String.eqb expr "x^2 - 4" then Return "2 * x"
  else Throw (ErrorInstance ("Cannot differentiate " ++ expr)).

Definition mathjs_once : MathJS :=
  Build_MathJS evaluate derivative_once.

(** [Math.pow] at the exponent the page uses, 2. *)
Definition Math_pow (b e : number) : number := b * b.

End Stub.

(** ** Configurations of the form *)

Module Scenario.

Definition form (eq guess : string) (n : Z) (m : Method) (root : string)
  : Page.HomeState :=
  {| Page.equation := eq; Page.initialGuess := guess; Page.iterations := n;
     Page.method := m; Page.results := []; Page.loading := false;
     Page.st_error := ""; Page.trueRoot := root |}.

(** Scenario A: the square root of 4 from 3, three passes. *)
Definition A : Page.HomeState := form "x^2 - 4" "3" 3 standard "2".

(** The same under the modified method. *)
Definition A_modified : Page.HomeState := form "x^2 - 4" "3" 3 modified "2".

(** The state after scenario A has run. *)
Definition after_A : Page.HomeState :=
  Page.calculateNewtonRaphson Stub.mathjs Stub.Math_pow A.

(** The anomaly scenario: [f(x) = x] from 0. *)
Definition identity_at_zero : Page.HomeState := form "x" "0" 2 standard "".

(** A start where the derivative vanishes. *)
Definition flat_start : Page.HomeState := form "x^2 - 4" "0" 3 standard "2".

(** A guess that is no number. *)
Definition guess_abc : Page.HomeState := form "x^2 - 4" "abc" 3 standard "2".



(** An expression with an undefined symbol, typed after scenario A has
    run. *)
Definition undefined_symbol : Page.HomeState := Page.setEquation "y" after_A.

(** Scenario A on the other copy of the page, two passes. *)
Definition other_A : OtherPage.HomeState :=
  {| OtherPage.equation := "x^2 - 4"; OtherPage.initialGuess := "3";
     OtherPage.iterations := 2; OtherPage.method := standard;
     OtherPage.results := []; OtherPage.loading := false;
     OtherPage.st_error := "" |}.

End Scenario.

(** ** The example gallery of the page *)

Module Gallery.

Record ExampleProblem : Type := {
  title : string;
  equation : string;
  initialGuess : string;
  method : Method;
  description : string
}.

Definition examples : list ExampleProblem :=
  [ {| title := "Example 1";
       equation := "12*x^3 - 30*x^2 - 84*x + 48";
       initialGuess := "-1";
       method := modified;
       description := "Finding root of cubic equation" |};
    {| title := "Example 2";
       equation := "x^2 - 4";
       initialGuess := "3";
       method := standard;
       description := "Finding square root of 4" |};
    {| title := "Example 3";
       equation := "exp(x) - 3*x";
       initialGuess := "1";
       method := modified;
       description := "Exponential equation" |} ].

Definition setInitialGuess (v : string) (st : Page.HomeState)
  : Page.HomeState :=
  {| Page.equation := Page.equation st; Page.initialGuess := v;
     Page.iterations := Page.iterations st; Page.method := Page.method st;
     Page.results := Page.results st; Page.loading := Page.loading st;
     Page.st_error := Page.st_error st; Page.trueRoot := Page.trueRoot st |}.

Definition setMethod (v : Method) (st : Page.HomeState) : Page.HomeState :=
  {| Page.equation := Page.equation st;
     Page.initialGuess := Page.initialGuess st;
     Page.iterations := Page.iterations st; Page.method := v;
     Page.results := Page.results st; Page.loading := Page.loading st;
     Page.st_error := Page.st_error st; Page.trueRoot := Page.trueRoot st |}.

(** [loadExample]: three setters, in the order of the source. *)
Definition loadExample (example : ExampleProblem) (st : Page.HomeState)
  : Page.HomeState :=
  setMethod (method example)
    (setInitialGuess (initialGuess example)
       (Page.setEquation (equation example) st)).

End Gallery.

(** ** What the page renders from its state

    The parts of the returned JSX that depend on the state: the button, the
    error box and the results table.  Styling and fixed texts are left out;
    a cell is the text it shows, and [undefined] shows as no text. *)

Module View.

Record Table : Type := {
  header : list string;
  rows : list (list string)
}.

Record Screen : Type := {
  button_text : string;
  button_disabled : bool;
  error_box : option string;
  results_table : option Table
}.

(** A number as React prints it, for the integers of the model. *)
Definition number_text (z : Z) : string :=
  match z with
  | Zneg p => "-" ++ decimal (Zpos p)
  | _ => decimal z
  end.

(** [{result.fppx}], an optional field. *)
Definition optional_text (v : option string) : string :=
  match v with
  | Some s => s
  | None => ""
  end.

Definition header_cells (m : Method) : list string :=
  (["Iteration"; "x"; "f(x)"; "f'(x)"]
   ++ match m with
      | modified => ["f''(x)"]
      | standard => []
      end
   ++ ["x_next"; "Ea"; "Et"])%list.

Definition row_cells (m : Method) (result : Page.IterationResult)
  : list string :=
  ([number_text (Page.iteration result); Page.x result; Page.fx result;
    Page.fpx result]
   ++ match m with
      | modified => [optional_text (Page.fppx result)]
      | standard => []
      end
   ++ [Page.x_next result; Page.error result; Page.et result])%list.

Definition render (st : Page.HomeState) : Screen :=
  {| button_text := if Page.loading st then "Calculating..." else "Calculate";
     button_disabled := Page.loading st;
     error_box := match Page.st_error st with
                  | EmptyString => None
                  | text => Some text
                  end;
     results_table :=
       if (0 <? List.length (Page.results st))%nat
       then Some {| header := header_cells (Page.method st);
                    rows := List.map (row_cells (Page.method st))
                              (Page.results st) |}
       else None |}.

End View.

(** ** The trace of a run of the other copy *)

Module OtherTrace.

Section OtherTrace.

Variable mathjs : MathJS.
Variable Math_pow : number -> number -> number.

(** The iterate held by [x0] when pass [k] starts. *)
Definition x0_entering (st : OtherPage.HomeState) (k : nat) : Exc number :=
  bind (OtherPage.loop_vars mathjs Math_pow st k)
       (fun vars => Return (fst vars)).

(** The iterate a pass carries on: the update printed with two decimals
    and parsed back. *)
Definition carried (st : OtherPage.HomeState) (x0 a b c : number) : number :=
  parseFloat (toFixed (Spec.x_next Math_pow (OtherPage.method st) x0 a b c) 2).

(** The record pushed by a pass, from the values [a], [b], [c] that the
    evaluator gives for [f], [f'], [f''] at the entering iterate. *)
Definition shown (st : OtherPage.HomeState) (i : Z) (x0 a b c : number)
  : OtherPage.IterationResult :=
  let x1 := carried st x0 a b c in
  {| OtherPage.iteration := i + 1;
     OtherPage.x := toFixed x0 2;
     OtherPage.fx := toFixed (parseFloat (toFixed a 2)) 2;
     OtherPage.fpx := toFixed (parseFloat (toFixed b 2)) 2;
     OtherPage.fppx := match OtherPage.method st with
                       | standard => None
                       | modified =>
                           Some (toFixed (parseFloat (toFixed c 2)) 2)
                       end;
     OtherPage.x_next := toFixed x1 2;
     OtherPage.error := toFixed (OtherPage.calculateError x1 x0) 2 ++ "%";
     OtherPage.formula := match OtherPage.method st with
                          | standard => formula_standard
                          | modified => formula_modified
                          end |}.

(** The evaluator returns at every iterate that the first [n] passes reach. *)
Definition evaluator_succeeds (st : OtherPage.HomeState) (n : nat) : Prop :=
  forall k x0, (k < n)%nat -> x0_entering st k = Return x0 ->
    exists fx fpx fppx,
      OtherPage.f mathjs st x0 = Return fx
      /\ OtherPage.fPrime mathjs st x0 = Return fpx
      /\ OtherPage.fDoublePrime mathjs st x0 = Return fppx.

End OtherTrace.

End OtherTrace.

(** The sign bit of a number ([NaN] has none). *)
Definition sign_bit (v : number) : bool :=
  match Prim2SF v with
  | S754_zero s | S754_infinity s | S754_finite s _ _ => s
  | S754_nan => false
  end.

(** A text that begins with a minus sign. *)
Definition starts_with_minus (s : string) : bool :=
  match s with
  | String c _ => Ascii.eqb c "-"
  | EmptyString => false
  end.

(** More configurations of the form. *)

Module Scenario2.

(** An undefined symbol and no pass to run. *)
Definition undefined_no_pass : Page.HomeState :=
  Scenario.form "y" "3" 0 standard "".

(** An exact root as the guess: [x^2 - 4] from 2. *)
Definition at_root : Page.HomeState :=
  Scenario.form "x^2 - 4" "2" 3 standard "2".

(** Scenario A under the modified method, after it has run. *)
Definition after_A_modified : Page.HomeState :=
  Page.calculateNewtonRaphson Stub.mathjs Stub.Math_pow Scenario.A_modified.

(** Scenario A on the other copy with an undefined symbol. *)
Definition other_undefined : OtherPage.HomeState :=
  {| OtherPage.equation := "y"; OtherPage.initialGuess := "3";
     OtherPage.iterations := 2; OtherPage.method := standard;
     OtherPage.results := []; OtherPage.loading := false;
     OtherPage.st_error := "" |}.

(** A start where the derivative vanishes, on the other copy. *)
Definition other_flat_start : OtherPage.HomeState :=
  {| OtherPage.equation := "x^2 - 4"; OtherPage.initialGuess := "0";
     OtherPage.iterations := 3; OtherPage.method := standard;
     OtherPage.results := []; OtherPage.loading := false;
     OtherPage.st_error := "" |}.

End Scenario2.

(** ** Facts on binary64 arithmetic *)

Section FloatFacts.

Local Open Scope float_scope.

(** Rounding to nearest even does not look at the sign. *)
Lemma SFabs_binary_round_aux (s : bool) (m e : Z) (l : location) :
  SFabs (binary_round_aux prec emax s m e l)
  = binary_round_aux prec emax false m e l.
Proof.
  unfold binary_round_aux.
  destruct (shr_fexp prec emax m e l) as [mrs' e'].
  destruct (shr_fexp prec emax _ e' loc_Exact) as [mrs'' e''].
  destruct (shr_m mrs''); cbn [SFabs]; try reflexivity.
  destruct (Z.leb e'' (Z.sub emax prec)); reflexivity.
Qed.

(** [Math.abs(a / b)] is [Math.abs(a) / Math.abs(b)], for all numbers. *)
Lemma abs_div (a b : number) : abs (a / b) = abs a / abs b.
Proof.
  apply Prim2SF_inj.
  rewrite abs_spec, !div_spec, !abs_spec.
  unfold SF64div.
  destruct (Prim2SF a) as [sa|sa| |sa ma ea],
           (Prim2SF b) as [sb|sb| |sb mb eb];
    cbn [SFdiv SFabs xorb]; try reflexivity.
  destruct (SFdiv_core_binary prec emax (Zpos ma) ea (Zpos mb) eb)
    as [[mz ez] lz].
  apply SFabs_binary_round_aux.
Qed.

(** A zero, of either sign. *)
Lemma is_zero_spec (d : number) :
  is_zero d = true -> exists s, Prim2SF d = S754_zero s.
Proof.
  unfold is_zero. rewrite eqb_spec.
  replace (Prim2SF zero) with (S754_zero false) by (vm_compute; reflexivity).
  destruct (Prim2SF d) as [s|s| |s m e]; try discriminate.
  - intros _. now exists s.
  - destruct s; discriminate.
  - destruct s; discriminate.
Qed.

Lemma div_by_zero_not_finite (a d : number) :
  is_zero d = true -> isFinite (a / d) = false.
Proof.
  intros Hd. destruct (is_zero_spec d Hd) as [s Hs].
  unfold isFinite. rewrite div_spec, Hs. unfold SF64div.
  destruct (Prim2SF a); reflexivity.
Qed.

Lemma sub_not_finite_l (a b : number) :
  isFinite a = false -> isFinite (a - b) = false.
Proof.
  unfold isFinite. rewrite sub_spec. unfold SF64sub.
  destruct (Prim2SF a) as [sa|sa| |sa ma ea]; try discriminate; intros _;
    destruct (Prim2SF b) as [sb|sb| |sb mb eb]; try reflexivity.
  destruct sa, sb; reflexivity.
Qed.

Lemma sub_not_finite_r (a b : number) :
  isFinite b = false -> isFinite (a - b) = false.
Proof.
  unfold isFinite. rewrite sub_spec. unfold SF64sub.
  destruct (Prim2SF b) as [sb|sb| |sb mb eb]; try discriminate; intros _;
    destruct (Prim2SF a) as [sa|sa| |sa ma ea]; try reflexivity.
  destruct sa, sb; reflexivity.
Qed.

Lemma abs_not_finite (a : number) :
  isFinite a = false -> isFinite (abs a) = false.
Proof.
  unfold isFinite. rewrite abs_spec.
  destruct (Prim2SF a); try discriminate; reflexivity.
Qed.

Lemma mul_not_finite_l (a b : number) :
  isFinite a = false -> isFinite (a * b) = false.
Proof.
  unfold isFinite. rewrite mul_spec. unfold SF64mul.
  destruct (Prim2SF a) as [sa|sa| |sa ma ea]; try discriminate; intros _;
    destruct (Prim2SF b) as [sb|sb| |sb mb eb]; reflexivity.
Qed.


Lemma toFixed_not_finite (v : number) (digits : nat) :
  isFinite v = false -> non_finite_text (toFixed v digits).
Proof.
  unfold isFinite, toFixed, non_finite_text.
  destruct (Prim2SF v) as [s|s| |s m e]; try discriminate; intros _.
  - destruct s; auto.
  - auto.
Qed.


End FloatFacts.


(** ** Properties of the page *)

Section PageProperties.

Variable mathjs : MathJS.
Variable Math_pow : number -> number -> number.

Local Open Scope float_scope.

Local Abbreviation f := (Page.f mathjs).
Local Abbreviation fPrime := (Page.fPrime mathjs).
Local Abbreviation fDoublePrime := (Page.fDoublePrime mathjs).
Local Abbreviation loop_body := (Page.loop_body mathjs Math_pow).
Local Abbreviation for_loop := (Page.for_loop mathjs Math_pow).
Local Abbreviation loop_vars := (Page.loop_vars mathjs Math_pow).
Local Abbreviation try_block := (Page.try_block mathjs Math_pow).
Local Abbreviation calculateNewtonRaphson := (Page.calculateNewtonRaphson mathjs Math_pow).
Local Abbreviation x0_entering := (Trace.x0_entering mathjs Math_pow).
Local Abbreviation shown := (Trace.shown Math_pow).
Local Abbreviation evaluator_succeeds := (Trace.evaluator_succeeds mathjs Math_pow).


Lemma loop_body_shown st i x0 rs :
  loop_body st i (x0, rs)
  = bind (f st x0) (fun fx =>
    bind (fPrime st x0) (fun fpx =>
    bind (fDoublePrime st x0) (fun fppx =>
      Return (Spec.x_next Math_pow (Page.method st) x0 fx fpx fppx,
              push rs (shown st i x0 fx fpx fppx))))).
Proof.
  unfold Page.loop_body, Trace.shown, Spec.x_next, Spec.Ea, Spec.Et,
    Page.calculateError, Math_abs.
  destruct (f st x0) as [fx|e]; [|reflexivity].
  destruct (fPrime st x0) as [fpx|e]; [|reflexivity].
  destruct (fDoublePrime st x0) as [fppx|e]; [|reflexivity].
  cbn [bind].
  destruct (Page.method st); rewrite !abs_div; reflexivity.
Qed.

Lemma for_loop_snoc st n i vars :
  for_loop st (S n) i vars
  = bind (for_loop st n i vars) (loop_body st (i + Z.of_nat n)%Z).
Proof.
  revert i vars. induction n as [|n IH]; intros i vars.
  - cbn [Page.for_loop bind]. replace (i + Z.of_nat 0)%Z with i by lia.
    destruct (loop_body st i vars); reflexivity.
  - change (for_loop st (S (S n)) i vars)
      with (bind (loop_body st i vars) (for_loop st (S n) (i + 1)%Z)).
    change (for_loop st (S n) i vars)
      with (bind (loop_body st i vars) (for_loop st n (i + 1)%Z)).
    destruct (loop_body st i vars) as [vars'|e]; [|reflexivity].
    cbn [bind]. rewrite IH. do 2 f_equal. lia.
Qed.

Lemma loop_vars_S st k :
  loop_vars st (S k) = bind (loop_vars st k) (loop_body st (Z.of_nat k)).
Proof. unfold Page.loop_vars. now rewrite for_loop_snoc. Qed.

(** One more pass, seen from the values it computes. *)
Lemma loop_vars_step st k xk rs x' rs' :
  loop_vars st k = Return (xk, rs) ->
  loop_vars st (S k) = Return (x', rs') ->
  exists fx fpx fppx,
    f st xk = Return fx /\ fPrime st xk = Return fpx
    /\ fDoublePrime st xk = Return fppx
    /\ x' = Spec.x_next Math_pow (Page.method st) xk fx fpx fppx
    /\ rs' = push rs (shown st (Z.of_nat k) xk fx fpx fppx).
Proof.
  intros Hk. rewrite loop_vars_S, Hk. cbn [bind]. rewrite loop_body_shown.
  destruct (f st xk) as [fx|e]; [|discriminate].
  destruct (fPrime st xk) as [fpx|e]; [|discriminate].
  destruct (fDoublePrime st xk) as [fppx|e]; [|discriminate].
  cbn [bind]. intros H. injection H as <- <-.
  exists fx, fpx, fppx. repeat split; reflexivity.
Qed.

(** A run that returns went through every shorter prefix, and each prefix
    holds the first records of the whole. *)
Lemma loop_vars_prefix st n xn all :
  loop_vars st n = Return (xn, all) ->
  List.length all = n
  /\ forall k, (k <= n)%nat ->
       exists xk, loop_vars st k = Return (xk, firstn k all).
Proof.
  revert xn all. induction n as [|n IH]; intros xn all Hn.
  - unfold Page.loop_vars in Hn. cbn in Hn. injection Hn as <- <-.
    split; [reflexivity|]. intros k Hk. replace k with O by lia.
    now exists (parseFloat (Page.initialGuess st)).
  - destruct (loop_vars st n) as [[x rs]|e] eqn:Hprev.
    2:{ rewrite loop_vars_S, Hprev in Hn. discriminate. }
    destruct (loop_vars_step st n x rs xn all Hprev Hn)
      as (fx & fpx & fppx & _ & _ & _ & _ & Hall).
    destruct (IH x rs eq_refl) as [Hlen Hpre].
    subst all. unfold push. split.
    + rewrite length_app. cbn. lia.
    + intros k Hk. destruct (Nat.eq_dec k (S n)) as [->|Hne].
      * exists xn. rewrite firstn_all2; [assumption|].
        rewrite length_app. cbn. lia.
      * destruct (Hpre k ltac:(lia)) as [xk Hxk]. exists xk.
        rewrite firstn_app. replace (k - List.length rs)%nat with O by lia.
        cbn [firstn]. now rewrite app_nil_r.
Qed.

(** The record at index [k] of a run that returned is the one pass [k]
    pushed, computed from the iterate that entered the pass. *)
Lemma record_of_pass st n xn all k r :
  loop_vars st n = Return (xn, all) ->
  nth_error all k = Some r ->
  exists xk fx fpx fppx,
    (k < n)%nat
    /\ x0_entering st k = Return xk
    /\ f st xk = Return fx /\ fPrime st xk = Return fpx
    /\ fDoublePrime st xk = Return fppx
    /\ x0_entering st (S k)
       = Return (Spec.x_next Math_pow (Page.method st) xk fx fpx fppx)
    /\ r = shown st (Z.of_nat k) xk fx fpx fppx.
Proof.
  intros Hn Hr.
  destruct (loop_vars_prefix st n xn all Hn) as [Hlen Hpre].
  assert (Hk : (k < n)%nat).
  { rewrite <- Hlen. apply nth_error_Some. now rewrite Hr. }
  destruct (Hpre k ltac:(lia)) as [xk Hxk].
  destruct (Hpre (S k) ltac:(lia)) as [xk' Hxk'].
  destruct (loop_vars_step st k _ _ _ _ Hxk Hxk')
    as (fx & fpx & fppx & Hf & Hf' & Hf'' & Hx & Hrs).
  exists xk, fx, fpx, fppx.
  unfold Trace.x0_entering. rewrite Hxk, Hxk'. cbn [bind fst].
  repeat split; try assumption; try (now subst xk').
  assert (Hnth : nth_error (firstn (S k) all) k = Some r).
  { rewrite nth_error_firstn.
    destruct (Nat.ltb_spec k (S k)); [assumption|lia]. }
  rewrite Hrs in Hnth. unfold push in Hnth.
  rewrite nth_error_app2 in Hnth by (rewrite length_firstn; lia).
  rewrite length_firstn in Hnth.
  replace (k - Nat.min k (List.length all))%nat with O in Hnth by lia.
  cbn in Hnth. now injection Hnth as <-.
Qed.

(** When the evaluator returns along the way, so does the loop. *)
Lemma loop_vars_returns st n :
  evaluator_succeeds st n ->
  exists xn all, loop_vars st n = Return (xn, all).
Proof.
  induction n as [|n IH]; intros Hev.
  - now exists (parseFloat (Page.initialGuess st)), [].
  - destruct IH as (x & rs & Hn).
    { intros k x0 Hk. apply Hev. lia. }
    destruct (Hev n x ltac:(lia)) as (fx & fpx & fppx & Hf & Hf' & Hf'').
    { unfold Trace.x0_entering. now rewrite Hn. }
    rewrite loop_vars_S, Hn. cbn [bind]. rewrite loop_body_shown.
    rewrite Hf, Hf', Hf''. cbn [bind]. eauto.
Qed.


Lemma try_block_returns st all :
  try_block st = Return all ->
  exists xn, loop_vars st (Z.to_nat (Page.iterations st)) = Return (xn, all).
Proof.
  unfold Page.try_block.
  destruct (loop_vars st _) as [[xn rs]|e]; [|discriminate].
  cbn. intros H. injection H as <-. now exists xn.
Qed.

Lemma try_block_of_loop st xn all :
  loop_vars st (Z.to_nat (Page.iterations st)) = Return (xn, all) ->
  try_block st = Return all
  /\ calculateNewtonRaphson st
     = Page.setLoading false
         (Page.setResults all (Page.setError "" (Page.setLoading true st))).
Proof.
  intros H. unfold Page.calculateNewtonRaphson, Page.try_block.
  rewrite H. split; reflexivity.
Qed.

(** An exception in pass [k] ends the loop, whatever the number of passes. *)
Lemma loop_vars_throws st k n err :
  loop_vars st (S k) = Throw err -> (k < n)%nat -> loop_vars st n = Throw err.
Proof.
  intros Hk Hlt. induction n as [|n IH]; [lia|].
  destruct (Nat.eq_dec k n) as [->|Hne]; [assumption|].
  rewrite loop_vars_S, IH by lia. reflexivity.
Qed.

Lemma try_block_throws st k x rs err :
  (k < Z.to_nat (Page.iterations st))%nat ->
  loop_vars st k = Return (x, rs) ->
  loop_body st (Z.of_nat k) (x, rs) = Throw err ->
  try_block st = Throw err
  /\ calculateNewtonRaphson st
     = Page.setLoading false
         (Page.setError (catch_message err)
            (Page.setError "" (Page.setLoading true st))).
Proof.
  intros Hk Hvars Hbody.
  assert (H : loop_vars st (Z.to_nat (Page.iterations st)) = Throw err).
  { apply (loop_vars_throws st k); [|assumption].
    rewrite loop_vars_S, Hvars. exact Hbody. }
  unfold Page.calculateNewtonRaphson, Page.try_block. rewrite H.
  split; reflexivity.
Qed.

Lemma x0_entering_inv st k x :
  x0_entering st k = Return x -> exists rs, loop_vars st k = Return (x, rs).
Proof.
  unfold Trace.x0_entering. destruct (loop_vars st k) as [[x' rs]|e]; [|discriminate].
  cbn. intros H. injection H as <-. now exists rs.
Qed.

(** Once the iterate is not finite, it stays so. *)
Lemma not_finite_propagates st k xk :
  x0_entering st k = Return xk -> isFinite xk = false ->
  forall j xj, (k <= j)%nat -> x0_entering st j = Return xj ->
    isFinite xj = false.
Proof.
  intros Hk Hnf j. induction j as [|j IH]; intros xj Hle Hj.
  - replace k with O in Hk by lia. rewrite Hk in Hj. now injection Hj as <-.
  - destruct (Nat.eq_dec k (S j)) as [->|Hne].
    { rewrite Hk in Hj. now injection Hj as <-. }
    destruct (x0_entering_inv st (S j) xj Hj) as [rs' Hj'].
    destruct (loop_vars st j) as [[x rs]|e] eqn:Hprev.
    2:{ rewrite loop_vars_S, Hprev in Hj'. discriminate. }
    destruct (loop_vars_step st j x rs xj rs' Hprev Hj')
      as (fx & fpx & fppx & _ & _ & _ & Hx & _).
    assert (Hx_nf : isFinite x = false).
    { apply IH; [lia|]. unfold Trace.x0_entering. now rewrite Hprev. }
    subst xj. unfold Spec.x_next.
    destruct (Page.method st); now apply sub_not_finite_l.
Qed.

(** A zero denominator in the update gives an iterate that is not finite. *)
Lemma zero_denominator_not_finite m x fx fpx fppx :
  is_zero (Spec.update_denominator Math_pow m fx fpx fppx) = true ->
  isFinite (Spec.x_next Math_pow m x fx fpx fppx) = false.
Proof.
  unfold Spec.update_denominator, Spec.x_next. intros H.
  destruct m; apply sub_not_finite_r; now apply div_by_zero_not_finite.
Qed.

Lemma Ea_zero_not_finite x x1 :
  is_zero x1 = true -> isFinite (Spec.Ea x x1) = false.
Proof.
  intros H. unfold Spec.Ea. apply mul_not_finite_l.
  rewrite <- abs_div. apply abs_not_finite. now apply div_by_zero_not_finite.
Qed.

Lemma Et_zero_not_finite T x1 :
  is_zero T = true -> isFinite (Spec.Et T x1) = false.
Proof.
  intros H. unfold Spec.Et. apply mul_not_finite_l.
  rewrite <- abs_div. apply abs_not_finite. now apply div_by_zero_not_finite.
Qed.


(** C1. For every record of a run that returned, the iterate carried out of
    the pass is the update formula of the selected method applied to the
    full-precision iterate [x] that entered the pass and to the values
    [f(x)], [f'(x)], [f''(x)] of the evaluator: [x - f(x)/f'(x)] under
    standard, [x - f(x) f'(x) / (f'(x)^2 - f(x) f''(x))] under modified.  The
    record shows both iterates with two decimals. *)
Theorem update_law st all k r :
  try_block st = Return all ->
  nth_error all k = Some r ->
  exists x fx fpx fppx,
    x0_entering st k = Return x
    /\ f st x = Return fx /\ fPrime st x = Return fpx
    /\ fDoublePrime st x = Return fppx
    /\ x0_entering st (S k)
       = Return match Page.method st with
                | standard => x - fx / fpx
                | modified => x - (fx * fpx) / (Math_pow fpx 2 - fx * fppx)
                end
    /\ Page.x r = toFixed x 2
    /\ Page.x_next r
       = toFixed match Page.method st with
                 | standard => x - fx / fpx
                 | modified => x - (fx * fpx) / (Math_pow fpx 2 - fx * fppx)
                 end 2.
Proof.
  intros Hrun Hr. destruct (try_block_returns st all Hrun) as [xn Hn].
  destruct (record_of_pass st _ xn all k r Hn Hr)
    as (x & fx & fpx & fppx & _ & Hx & Hf & Hf' & Hf'' & Hnext & ->).
  exists x, fx, fpx, fppx. repeat split; assumption || reflexivity.
Qed.

(** C2. With a positive iteration count N and an evaluator that returns at
    every iterate reached, the run returns exactly N records, whatever the
    iterates do; the first record shows the parsed initial guess, and each
    later record shows as [x] the very full-precision value that the record
    before it shows as [x_next]. *)
Theorem fixed_length_trace st :
  (0 < Page.iterations st)%Z ->
  evaluator_succeeds st (Z.to_nat (Page.iterations st)) ->
  exists all,
    try_block st = Return all
    /\ Page.results (calculateNewtonRaphson st) = all
    /\ Z.of_nat (List.length all) = Page.iterations st
    /\ x0_entering st 0 = Return (parseFloat (Page.initialGuess st))
    /\ (exists r0, nth_error all 0 = Some r0
                   /\ Page.x r0 = toFixed (parseFloat (Page.initialGuess st)) 2)
    /\ forall i r_prev r,
         nth_error all i = Some r_prev -> nth_error all (S i) = Some r ->
         exists xi, x0_entering st (S i) = Return xi
                    /\ Page.x_next r_prev = toFixed xi 2
                    /\ Page.x r = toFixed xi 2.
Proof.
  intros Hpos Hev.
  destruct (loop_vars_returns st _ Hev) as (xn & all & Hn).
  destruct (try_block_of_loop st xn all Hn) as [Hrun Hcalc].
  destruct (loop_vars_prefix st _ xn all Hn) as [Hlen _].
  exists all. split; [assumption|]. split; [now rewrite Hcalc|].
  split; [lia|]. split; [reflexivity|]. split.
  - destruct all as [|r0 all']; [cbn in Hlen; lia|].
    exists r0. split; [reflexivity|].
    destruct (record_of_pass st _ xn _ O r0 Hn eq_refl)
      as (x & fx & fpx & fppx & _ & Hx & _ & _ & _ & _ & ->).
    cbn in Hx. injection Hx as <-. reflexivity.
  - intros i r_prev r Hprev Hr.
    destruct (record_of_pass st _ xn all i r_prev Hn Hprev)
      as (x & fx & fpx & fppx & _ & _ & _ & _ & _ & Hnext & ->).
    destruct (record_of_pass st _ xn all (S i) r Hn Hr)
      as (x' & fx' & fpx' & fppx' & _ & Hx' & _ & _ & _ & _ & ->).
    rewrite Hnext in Hx'. injection Hx' as <-.
    eexists. split; [exact Hnext|]. split; reflexivity.
Qed.

(** C4. For every record of a run that returned, the approximate error shown
    is [|x_next - x| / |x_next| * 100], computed on the full-precision
    iterates entering and leaving the pass (the new iterate is the
    denominator) and printed with two decimals and a percent sign. *)
Theorem Ea_law st all k r :
  try_block st = Return all ->
  nth_error all k = Some r ->
  exists x x1,
    x0_entering st k = Return x
    /\ x0_entering st (S k) = Return x1
    /\ Page.x r = toFixed x 2
    /\ Page.x_next r = toFixed x1 2
    /\ Page.error r = toFixed (abs (x1 - x) / abs x1 * 100) 2 ++ "%".
Proof.
  intros Hrun Hr. destruct (try_block_returns st all Hrun) as [xn Hn].
  destruct (record_of_pass st _ xn all k r Hn Hr)
    as (x & fx & fpx & fppx & _ & Hx & _ & _ & _ & Hnext & ->).
  eexists x, _. repeat split; eassumption || reflexivity.
Qed.

(** C5. For every record of a run that returned, the true error shown is
    [|T - x_next| / |T| * 100] on the full-precision new iterate, where [T]
    is the parsed true root when the text parses to a number other than zero,
    and [T = 0] when the text is empty; in the latter case the value is not
    finite and the record shows it as such. *)
Theorem Et_law st all k r :
  try_block st = Return all ->
  nth_error all k = Some r ->
  exists x1,
    x0_entering st (S k) = Return x1
    /\ Page.x_next r = toFixed x1 2
    /\ (forall T, parseFloat (Page.trueRoot st) = T ->
          is_nan T = false -> is_zero T = false ->
          Page.et r = toFixed (abs (T - x1) / abs T * 100) 2 ++ "%")
    /\ (Page.trueRoot st = "" ->
          Page.et r = toFixed (abs (0 - x1) / abs 0 * 100) 2 ++ "%"
          /\ isFinite (abs (0 - x1) / abs 0 * 100) = false
          /\ exists t, Page.et r = t ++ "%" /\ non_finite_text t).
Proof.
  intros Hrun Hr. destruct (try_block_returns st all Hrun) as [xn Hn].
  destruct (record_of_pass st _ xn all k r Hn Hr)
    as (x & fx & fpx & fppx & _ & Hx & _ & _ & _ & Hnext & ->).
  eexists. split; [exact Hnext|]. split; [reflexivity|]. split.
  - intros T HT Hnan Hzero. cbn [Page.et Trace.shown].
    unfold Page.trueRootValue, or_else, ToBoolean.
    rewrite HT, Hnan, Hzero. reflexivity.
  - intros Hempty. cbn [Page.et Trace.shown].
    assert (HT : Page.trueRootValue st = 0).
    { unfold Page.trueRootValue. rewrite Hempty. reflexivity. }
    rewrite HT. split; [reflexivity|].
    assert (Hnf : isFinite (Spec.Et 0 (Spec.x_next Math_pow (Page.method st)
                                         x fx fpx fppx)) = false)
      by now apply Et_zero_not_finite.
    split; [exact Hnf|].
    eexists. split; [reflexivity|]. now apply toFixed_not_finite.
Qed.


(** C6. Zero denominators do not abort the run.  When the evaluator returns
    at every iterate reached, the run returns all N records and sets no
    error; a pass whose update denominator is zero ([f'(x)] under standard,
    [f'(x)^2 - f(x) f''(x)] under modified) records a new iterate that is not
    finite, and every later record shows iterates that are not finite; a pass
    whose new iterate is zero records an approximate error that is not
    finite; and with a zero reference root every true error is not finite. *)
Theorem anomalies_do_not_abort st :
  evaluator_succeeds st (Z.to_nat (Page.iterations st)) ->
  exists all,
    try_block st = Return all
    /\ List.length all = Z.to_nat (Page.iterations st)
    /\ Page.results (calculateNewtonRaphson st) = all
    /\ Page.st_error (calculateNewtonRaphson st) = ""
    /\ forall k r x fx fpx fppx,
         nth_error all k = Some r ->
         x0_entering st k = Return x ->
         f st x = Return fx -> fPrime st x = Return fpx ->
         fDoublePrime st x = Return fppx ->
         (is_zero (Spec.update_denominator Math_pow (Page.method st)
                     fx fpx fppx) = true ->
            non_finite_text (Page.x_next r)
            /\ forall j r', (k < j)%nat -> nth_error all j = Some r' ->
                 non_finite_text (Page.x r')
                 /\ non_finite_text (Page.x_next r'))
         /\ (is_zero (Spec.x_next Math_pow (Page.method st) x fx fpx fppx)
             = true ->
               exists t, Page.error r = t ++ "%" /\ non_finite_text t)
         /\ (is_zero (Page.trueRootValue st) = true ->
               exists t, Page.et r = t ++ "%" /\ non_finite_text t).
Proof.
  intros Hev.
  destruct (loop_vars_returns st _ Hev) as (xn & all & Hn).
  destruct (try_block_of_loop st xn all Hn) as [Hrun Hcalc].
  destruct (loop_vars_prefix st _ xn all Hn) as [Hlen _].
  exists all. split; [assumption|]. split; [assumption|].
  split; [now rewrite Hcalc|]. split; [now rewrite Hcalc|].
  intros k r x fx fpx fppx Hr Hx Hf Hf' Hf''.
  destruct (record_of_pass st _ xn all k r Hn Hr)
    as (x' & fx' & fpx' & fppx' & _ & Hx' & Hg & Hg' & Hg'' & Hnext & ->).
  rewrite Hx in Hx'. injection Hx' as <-.
  rewrite Hf in Hg. injection Hg as <-.
  rewrite Hf' in Hg'. injection Hg' as <-.
  rewrite Hf'' in Hg''. injection Hg'' as <-.
  split; [|split].
  - intros Hden.
    pose proof (zero_denominator_not_finite _ x _ _ _ Hden) as Hnf.
    split; [now apply toFixed_not_finite|].
    intros j r' Hlt Hr'.
    destruct (record_of_pass st _ xn all j r' Hn Hr')
      as (xj & fxj & fpxj & fppxj & _ & Hxj & _ & _ & _ & Hnextj & ->).
    split; apply toFixed_not_finite.
    + apply (not_finite_propagates st (S k) _ Hnext Hnf j); [lia|assumption].
    + apply (not_finite_propagates st (S k) _ Hnext Hnf (S j));
        [lia|assumption].
  - intros Hzero. eexists. split; [reflexivity|].
    apply toFixed_not_finite. now apply Ea_zero_not_finite.
  - intros Hzero. eexists. split; [reflexivity|].
    apply toFixed_not_finite. now apply Et_zero_not_finite.
Qed.

(** C7. When the evaluator throws in some pass (on [f], on [f'] or on
    [f'']), the whole run throws that exception: the handler shows its
    message after ["Error: "], and [setResults] is not called, so none of the
    records computed by the passes before reaches the state. *)
Theorem evaluator_failure_aborts st k x err :
  (k < Z.to_nat (Page.iterations st))%nat ->
  x0_entering st k = Return x ->
  (f st x = Throw err
   \/ (exists fx, f st x = Return fx /\ fPrime st x = Throw err)
   \/ (exists fx fpx, f st x = Return fx /\ fPrime st x = Return fpx
                      /\ fDoublePrime st x = Throw err)) ->
  try_block st = Throw err
  /\ (exists rs, loop_vars st k = Return (x, rs) /\ List.length rs = k)
  /\ Page.results (calculateNewtonRaphson st) = Page.results st
  /\ Page.st_error (calculateNewtonRaphson st) = catch_message err
  /\ (forall message, err = ErrorInstance message ->
        Page.st_error (calculateNewtonRaphson st) = "Error: " ++ message)
  /\ Page.loading (calculateNewtonRaphson st) = false.
Proof.
  intros Hk Hx Hfail.
  destruct (x0_entering_inv st k x Hx) as [rs Hvars].
  assert (Hbody : loop_body st (Z.of_nat k) (x, rs) = Throw err).
  { rewrite loop_body_shown.
    destruct Hfail as [Hf|[(fx & Hf & Hf')|(fx & fpx & Hf & Hf' & Hf'')]].
    - now rewrite Hf.
    - now rewrite Hf, Hf'.
    - now rewrite Hf, Hf', Hf''. }
  destruct (try_block_throws st k x rs err Hk Hvars Hbody) as [Hrun Hcalc].
  split; [assumption|]. split.
  { exists rs. split; [assumption|].
    now destruct (loop_vars_prefix st k x rs Hvars). }
  rewrite Hcalc. split; [reflexivity|]. split; [reflexivity|].
  split; [|reflexivity]. now intros message ->.
Qed.

(** C8, as amended.  A guess whose text does not parse to a finite number is
    not rejected: [parseFloat] gives [NaN] or an infinity, the loop runs on
    it, and when the evaluator returns at every iterate the run returns all N
    records, sets no error, and every record shows iterates that are not
    finite. *)
Theorem non_finite_guess_iterates st :
  isFinite (parseFloat (Page.initialGuess st)) = false ->
  evaluator_succeeds st (Z.to_nat (Page.iterations st)) ->
  exists all,
    try_block st = Return all
    /\ List.length all = Z.to_nat (Page.iterations st)
    /\ Page.results (calculateNewtonRaphson st) = all
    /\ Page.st_error (calculateNewtonRaphson st) = ""
    /\ forall k r, nth_error all k = Some r ->
         non_finite_text (Page.x r) /\ non_finite_text (Page.x_next r).
Proof.
  intros Hguess Hev.
  destruct (loop_vars_returns st _ Hev) as (xn & all & Hn).
  destruct (try_block_of_loop st xn all Hn) as [Hrun Hcalc].
  destruct (loop_vars_prefix st _ xn all Hn) as [Hlen _].
  exists all. split; [assumption|]. split; [assumption|].
  split; [now rewrite Hcalc|]. split; [now rewrite Hcalc|].
  intros k r Hr.
  destruct (record_of_pass st _ xn all k r Hn Hr)
    as (x & fx & fpx & fppx & _ & Hx & _ & _ & _ & Hnext & ->).
  assert (H0 : x0_entering st 0 = Return (parseFloat (Page.initialGuess st)))
    by reflexivity.
  split; apply toFixed_not_finite.
  - apply (not_finite_propagates st O _ H0 Hguess k); [lia|assumption].
  - apply (not_finite_propagates st O _ H0 Hguess (S k)); [lia|assumption].
Qed.

(** C9. The second derivative is evaluated in every pass, under either
    method: when [f] and [f'] return at the iterate of some pass and [f'']
    throws there, the run throws that exception, also under standard, where
    neither the new iterate nor the record depends on the value of [f'']. *)
Theorem second_derivative_failure_aborts st k x fx fpx err :
  (k < Z.to_nat (Page.iterations st))%nat ->
  x0_entering st k = Return x ->
  f st x = Return fx -> fPrime st x = Return fpx ->
  fDoublePrime st x = Throw err ->
  try_block st = Throw err
  /\ Page.st_error (calculateNewtonRaphson st) = catch_message err
  /\ Page.results (calculateNewtonRaphson st) = Page.results st
  /\ (Page.method st = standard ->
        forall i v w,
          Spec.x_next Math_pow (Page.method st) x fx fpx v
          = Spec.x_next Math_pow (Page.method st) x fx fpx w
          /\ shown st i x fx fpx v = shown st i x fx fpx w
          /\ Page.fppx (shown st i x fx fpx v) = None).
Proof.
  intros Hk Hx Hf Hf' Hf''.
  destruct (x0_entering_inv st k x Hx) as [rs Hvars].
  assert (Hbody : loop_body st (Z.of_nat k) (x, rs) = Throw err).
  { rewrite loop_body_shown. now rewrite Hf, Hf', Hf''. }
  destruct (try_block_throws st k x rs err Hk Hvars Hbody) as [Hrun Hcalc].
  split; [assumption|]. rewrite Hcalc.
  split; [reflexivity|]. split; [reflexivity|].
  intros Hm i v w. unfold Trace.shown, Spec.x_next. rewrite Hm.
  split; [reflexivity|]. split; reflexivity.
Qed.

(** The outcome of the loop does not depend on the true-root text: the same
    exception, or the same iterate. *)
Lemma loop_vars_trueRoot st t k :
  match loop_vars st k, loop_vars (Page.setTrueRoot t st) k with
  | Return (x, rs), Return (x', rs') => x = x'
  | Throw e, Throw e' => e = e'
  | _, _ => False
  end.
Proof.
  induction k as [|k IH]; [reflexivity|].
  rewrite !loop_vars_S.
  destruct (loop_vars st k) as [[x rs]|e],
           (loop_vars (Page.setTrueRoot t st) k) as [[x' rs']|e'];
    try contradiction; [|exact IH].
  subst x'. cbn [bind]. rewrite !loop_body_shown.
  change (f (Page.setTrueRoot t st)) with (f st).
  change (fPrime (Page.setTrueRoot t st)) with (fPrime st).
  change (fDoublePrime (Page.setTrueRoot t st)) with (fDoublePrime st).
  destruct (f st x) as [fx|e]; [|reflexivity].
  destruct (fPrime st x) as [fpx|e]; [|reflexivity].
  destruct (fDoublePrime st x) as [fppx|e]; reflexivity.
Qed.


(** The loop reads the form fields only: states that agree on the equation,
    the guess, the count, the method and the true root give the same loop
    variables, whatever results, loading flag and error they hold. *)
Lemma loop_vars_same_fields st st' k :
  Page.equation st = Page.equation st' ->
  Page.initialGuess st = Page.initialGuess st' ->
  Page.method st = Page.method st' ->
  Page.trueRoot st = Page.trueRoot st' ->
  loop_vars st k = loop_vars st' k.
Proof.
  intros Heq Hguess Hm Hroot. induction k as [|k IH].
  - unfold Page.loop_vars. cbn [Page.for_loop]. now rewrite Hguess.
  - rewrite !loop_vars_S, IH.
    destruct (loop_vars st' k) as [[x rs]|e]; cbn [bind]; [|reflexivity].
    unfold Page.loop_body, Page.f, Page.fPrime, Page.fDoublePrime,
      Page.trueRootValue.
    rewrite Heq, Hm, Hroot. reflexivity.
Qed.

(** Rounding is for display only on the page.  In a run that returned, the
    value that enters pass [k + 1] is the unrounded update computed by pass
    [k]: the record of pass [k] shows it as [x_next] and the record of pass
    [k + 1] shows it as [x], both through [toFixed(2)], and it is never
    parsed back from such a text.  And two runs on the same form fields
    return the same records, whatever the state held before. *)
Theorem page_rounding_is_display_only st all k r r' :
  try_block st = Return all ->
  nth_error all k = Some r ->
  nth_error all (S k) = Some r' ->
  (exists x fx fpx fppx,
     x0_entering st k = Return x
     /\ f st x = Return fx /\ fPrime st x = Return fpx
     /\ fDoublePrime st x = Return fppx
     /\ x0_entering st (S k)
        = Return (Spec.x_next Math_pow (Page.method st) x fx fpx fppx)
     /\ Page.x_next r
        = toFixed (Spec.x_next Math_pow (Page.method st) x fx fpx fppx) 2
     /\ Page.x r'
        = toFixed (Spec.x_next Math_pow (Page.method st) x fx fpx fppx) 2)
  /\ forall st',
       Page.equation st' = Page.equation st ->
       Page.initialGuess st' = Page.initialGuess st ->
       Page.iterations st' = Page.iterations st ->
       Page.method st' = Page.method st ->
       Page.trueRoot st' = Page.trueRoot st ->
       try_block st' = Return all.
Proof.
  intros Hrun Hr Hr'. destruct (try_block_returns st all Hrun) as [xn Hn].
  split.
  - destruct (record_of_pass st _ xn all k r Hn Hr)
      as (x & fx & fpx & fppx & _ & Hx & Hf & Hf' & Hf'' & Hnext & ->).
    destruct (record_of_pass st _ xn all (S k) r' Hn Hr')
      as (y & fy & fpy & fppy & _ & Hy & _ & _ & _ & _ & ->).
    rewrite Hnext in Hy. injection Hy as <-.
    exists x, fx, fpx, fppx.
    repeat (split; [assumption|]). split; reflexivity.
  - intros st' Heq Hguess Hit Hm Hroot. unfold Page.try_block.
    rewrite Hit, (loop_vars_same_fields st' st) by assumption.
    now rewrite Hn.
Qed.

End PageProperties.

(** ** The stub and the scenarios *)

Local Open Scope float_scope.

Lemma stub_succeeds_square st n :
  Page.equation st = "x^2 - 4" ->
  Trace.evaluator_succeeds Stub.mathjs Stub.Math_pow st n.
Proof.
  intros Heq k x0 _ _. exists (x0 * x0 - 4)%float, (2 * x0)%float, 2%float.
  unfold Page.f, Page.fPrime, Page.fDoublePrime. rewrite Heq.
  split; [reflexivity|]. split; reflexivity.
Qed.

Lemma stub_succeeds_identity st n :
  Page.equation st = "x" ->
  Trace.evaluator_succeeds Stub.mathjs Stub.Math_pow st n.
Proof.
  intros Heq k x0 _ _. exists x0, 1%float, 0%float.
  unfold Page.f, Page.fPrime, Page.fDoublePrime. rewrite Heq.
  split; [reflexivity|]. split; reflexivity.
Qed.

(** Scenario A of the specification: the first pass shows 2.17 and the second
    starts from the unrounded value. *)
Example scenario_A_runs :
  List.map Page.x_next (Page.results Scenario.after_A)
  = ["2.17"; "2.01"; "2.00"]
  /\ List.map Page.x (Page.results Scenario.after_A)
     = ["3.00"; "2.17"; "2.01"]
  /\ List.map Page.fx (Page.results Scenario.after_A)
     = ["5.00"; "0.69"; "0.03"]
  /\ Trace.x0_entering Stub.mathjs Stub.Math_pow Scenario.A 1
     = Return (3 - 5 / 6)%float
  /\ PrimFloat.eqb (3 - 5 / 6) (parseFloat "2.17") = false.
Proof. vm_compute. repeat split. Qed.

Lemma update_law_witness :
  exists x fx fpx fppx,
    Trace.x0_entering Stub.mathjs Stub.Math_pow Scenario.A 1 = Return x
    /\ Page.f Stub.mathjs Scenario.A x = Return fx
    /\ Page.fPrime Stub.mathjs Scenario.A x = Return fpx
    /\ Page.fDoublePrime Stub.mathjs Scenario.A x = Return fppx
    /\ Trace.x0_entering Stub.mathjs Stub.Math_pow Scenario.A 2
       = Return (x - fx / fpx)%float.
Proof.
  edestruct (update_law Stub.mathjs Stub.Math_pow Scenario.A
               (Page.results Scenario.after_A) 1)
    as (x & fx & fpx & fppx & H1 & H2 & H3 & H4 & H5 & _).
  - vm_compute. reflexivity.
  - vm_compute. reflexivity.
  - exists x, fx, fpx, fppx. repeat (split; [assumption|]). exact H5.
Defined.

Lemma fixed_length_trace_witness :
  exists all,
    Page.try_block Stub.mathjs Stub.Math_pow Scenario.A = Return all
    /\ Z.of_nat (List.length all) = 3%Z
    /\ Trace.x0_entering Stub.mathjs Stub.Math_pow Scenario.A 0
       = Return 3%float.
Proof.
  destruct (fixed_length_trace Stub.mathjs Stub.Math_pow Scenario.A)
    as (all & Hrun & _ & Hlen & Hx0 & _).
  - reflexivity.
  - apply stub_succeeds_square. reflexivity.
  - exists all. split; [exact Hrun|]. split; [exact Hlen|exact Hx0].
Defined.

Lemma Ea_law_witness :
  exists x x1,
    Trace.x0_entering Stub.mathjs Stub.Math_pow Scenario.A 0 = Return x
    /\ Trace.x0_entering Stub.mathjs Stub.Math_pow Scenario.A 1 = Return x1
    /\ "38.46%" = toFixed (abs (x1 - x) / abs x1 * 100) 2 ++ "%".
Proof.
  edestruct (Ea_law Stub.mathjs Stub.Math_pow Scenario.A
               (Page.results Scenario.after_A) 0)
    as (x & x1 & H0 & H1 & _ & _ & Hea).
  - vm_compute. reflexivity.
  - vm_compute. reflexivity.
  - exists x, x1. split; [exact H0|]. split; [exact H1|exact Hea].
Defined.

Lemma Et_law_witness :
  exists x1,
    Trace.x0_entering Stub.mathjs Stub.Math_pow Scenario.A 1 = Return x1
    /\ "8.33%" = toFixed (abs (2 - x1) / abs 2 * 100) 2 ++ "%".
Proof.
  edestruct (Et_law Stub.mathjs Stub.Math_pow Scenario.A
               (Page.results Scenario.after_A) 0)
    as (x1 & H1 & _ & Het & _).
  - vm_compute. reflexivity.
  - vm_compute. reflexivity.
  - exists x1. split; [exact H1|].
    apply (Het 2%float); vm_compute; reflexivity.
Defined.

(** The anomaly scenario of the specification: [f(x) = x] from 0 under
    standard gives [x_next = 0] and an approximate error that is not finite,
    and the records are produced. *)
Lemma anomalies_do_not_abort_witness :
  exists all r,
    Page.try_block Stub.mathjs Stub.Math_pow Scenario.identity_at_zero
    = Return all
    /\ List.length all = 2%nat
    /\ nth_error all 0 = Some r
    /\ Page.x_next r = "0.00"
    /\ exists t, Page.error r = t ++ "%" /\ non_finite_text t.
Proof.
  destruct (anomalies_do_not_abort Stub.mathjs Stub.Math_pow
              Scenario.identity_at_zero)
    as (all & Hrun & Hlen & _ & _ & Hrec).
  - apply stub_succeeds_identity. reflexivity.
  - assert (Hall : Return all
                   = Return (Page.results
                               (Page.calculateNewtonRaphson Stub.mathjs
                                  Stub.Math_pow Scenario.identity_at_zero))).
    { rewrite <- Hrun. vm_compute. reflexivity. }
    injection Hall as ->.
    eexists _, _. split; [exact Hrun|]. split; [exact Hlen|].
    split; [vm_compute; reflexivity|]. split; [reflexivity|].
    eapply (Hrec 0%nat _ 0%float 0%float 1%float 0%float);
      vm_compute; reflexivity.
Defined.

(** A vanishing derivative: [x^2 - 4] from 0 under standard.  The first
    record shows an infinite new iterate, the later ones iterates that are
    not finite. *)
Example flat_start_runs :
  List.map Page.x_next
    (Page.results (Page.calculateNewtonRaphson Stub.mathjs Stub.Math_pow
                     Scenario.flat_start))
  = ["Infinity"; "NaN"; "NaN"]
  /\ List.map Page.x
       (Page.results (Page.calculateNewtonRaphson Stub.mathjs Stub.Math_pow
                        Scenario.flat_start))
     = ["0.00"; "Infinity"; "NaN"]
  /\ Page.st_error (Page.calculateNewtonRaphson Stub.mathjs Stub.Math_pow
                      Scenario.flat_start) = "".
Proof. vm_compute. repeat split. Qed.

Lemma evaluator_failure_aborts_witness :
  Page.try_block Stub.mathjs Stub.Math_pow Scenario.undefined_symbol
  = Throw (ErrorInstance "Undefined symbol y")
  /\ Page.results (Page.calculateNewtonRaphson Stub.mathjs Stub.Math_pow
                     Scenario.undefined_symbol)
     = Page.results Scenario.after_A
  /\ Page.st_error (Page.calculateNewtonRaphson Stub.mathjs Stub.Math_pow
                      Scenario.undefined_symbol)
     = "Error: Undefined symbol y".
Proof.
  destruct (evaluator_failure_aborts Stub.mathjs Stub.Math_pow
              Scenario.undefined_symbol 0 3%float
              (ErrorInstance "Undefined symbol y"))
    as (Hrun & _ & Hres & Herr & _).
  - vm_compute. lia.
  - reflexivity.
  - left. reflexivity.
  - split; [exact Hrun|]. split; [exact Hres|exact Herr].
Defined.

Lemma non_finite_guess_iterates_witness :
  exists all,
    Page.try_block Stub.mathjs Stub.Math_pow Scenario.guess_abc = Return all
    /\ List.length all = 3%nat
    /\ Page.st_error (Page.calculateNewtonRaphson Stub.mathjs Stub.Math_pow
                        Scenario.guess_abc) = "".
Proof.
  destruct (non_finite_guess_iterates Stub.mathjs Stub.Math_pow
              Scenario.guess_abc)
    as (all & Hrun & Hlen & _ & Herr & _).
  - vm_compute. reflexivity.
  - apply stub_succeeds_square. reflexivity.
  - exists all. split; [exact Hrun|]. split; [exact Hlen|exact Herr].
Defined.

(** C8 fails as stated: the guess [abc] parses to [NaN], and the run returns
    three records showing [NaN] and sets no error. *)
Lemma guess_not_rejected_counterexample :
  isFinite (parseFloat (Page.initialGuess Scenario.guess_abc)) = false
  /\ (exists all,
        Page.try_block Stub.mathjs Stub.Math_pow Scenario.guess_abc
        = Return all /\ List.length all = 3%nat)
  /\ List.map Page.x
       (Page.results (Page.calculateNewtonRaphson Stub.mathjs Stub.Math_pow
                        Scenario.guess_abc))
     = ["NaN"; "NaN"; "NaN"]
  /\ Page.st_error (Page.calculateNewtonRaphson Stub.mathjs Stub.Math_pow
                      Scenario.guess_abc) = "".
Proof.
  split; [vm_compute; reflexivity|]. split.
  - eexists. split; vm_compute; reflexivity.
  - split; vm_compute; reflexivity.
Qed.

Lemma second_derivative_failure_aborts_witness :
  Page.method Scenario.A = standard
  /\ Page.try_block Stub.mathjs_once Stub.Math_pow Scenario.A
     = Throw (ErrorInstance "Cannot differentiate 2 * x")
  /\ Page.st_error (Page.calculateNewtonRaphson Stub.mathjs_once
                      Stub.Math_pow Scenario.A)
     = "Error: Cannot differentiate 2 * x".
Proof.
  destruct (second_derivative_failure_aborts Stub.mathjs_once Stub.Math_pow
              Scenario.A 0 3%float 5%float 6%float
              (ErrorInstance "Cannot differentiate 2 * x"))
    as (Hrun & Herr & _).
  - vm_compute. lia.
  - reflexivity.
  - vm_compute. reflexivity.
  - vm_compute. reflexivity.
  - reflexivity.
  - split; [reflexivity|]. split; [exact Hrun|exact Herr].
Defined.


(** ** The other copy feeds the rounded iterate back *)

(** In the other copy the iterate carried out of a pass is the update
    of the method printed with two decimals and parsed back. *)
Lemma other_loop_body_carries_rounded mathjs Math_pow st i x0 rs x1 rs' :
  OtherPage.loop_body mathjs Math_pow st i (x0, rs) = Return (x1, rs') ->
  exists fx fpx fppx,
    OtherPage.f mathjs st x0 = Return fx
    /\ OtherPage.fPrime mathjs st x0 = Return fpx
    /\ OtherPage.fDoublePrime mathjs st x0 = Return fppx
    /\ x1 = parseFloat
              (toFixed (Spec.x_next Math_pow (OtherPage.method st)
                          x0 fx fpx fppx) 2).
Proof.
  unfold OtherPage.loop_body.
  destruct (OtherPage.f mathjs st x0) as [fx|e]; [|discriminate].
  destruct (OtherPage.fPrime mathjs st x0) as [fpx|e]; [|discriminate].
  destruct (OtherPage.fDoublePrime mathjs st x0) as [fppx|e];
    [|discriminate].
  cbn [bind]. intros H. exists fx, fpx, fppx.
  split; [reflexivity|]. split; [reflexivity|]. split; [reflexivity|].
  destruct (OtherPage.method st); cbn [bind] in H; injection H as <- _;
    reflexivity.
Qed.

(** Scenario A of the specification on the other copy, which rounds every
    step.  The first pass computes [3 - 5/6]; the iterate that enters the
    second pass is [parseFloat("2.17")], another number, where the page
    carries [3 - 5/6] itself; the second record then shows [f(x) = 0.71]
    where full precision gives 0.69. *)
Theorem other_page_feeds_back_rounded_iterate :
  bind (OtherPage.loop_vars Stub.mathjs Stub.Math_pow Scenario.other_A 1)
       (fun vars => Return (fst vars))
  = Return (parseFloat (toFixed (3 - 5 / 6) 2))
  /\ toFixed (3 - 5 / 6) 2 = "2.17"
  /\ PrimFloat.eqb (parseFloat "2.17") (3 - 5 / 6) = false
  /\ Trace.x0_entering Stub.mathjs Stub.Math_pow Scenario.A 1
     = Return (3 - 5 / 6)
  /\ List.map OtherPage.fx
       (OtherPage.results
          (OtherPage.calculateNewtonRaphson Stub.mathjs Stub.Math_pow
             Scenario.other_A))
     = ["5.00"; "0.71"]
  /\ List.map Page.fx (firstn 2 (Page.results Scenario.after_A))
     = ["5.00"; "0.69"].
Proof. vm_compute. repeat split. Qed.

(** The values of the built-ins on the texts and numbers of the scenarios. *)
Example builtins_on_samples :
  toFixed (3 - 5 / 6) 2 = "2.17"
  /\ toFixed (-0) 2 = "0.00"
  /\ toFixed (0 / 0) 2 = "NaN"
  /\ toFixed (-1 / 0) 2 = "-Infinity"
  /\ toFixed (of_Z_nearest (10 ^ 21)) 2 = "1e+21"
  /\ parseFloat "  -1.5e1px" = (-15)
  /\ isNaN (parseFloat "") = true
  /\ isNaN (parseFloat "abc") = true
  /\ parseFloat "0" = 0
  /\ parseFloat "Infinity" = infinity.
Proof. vm_compute. repeat split. Qed.

Lemma page_rounding_is_display_only_witness :
  exists x,
    Trace.x0_entering Stub.mathjs Stub.Math_pow Scenario.A 1 = Return x
    /\ PrimFloat.eqb x (3 - 5 / 6) = true
    /\ Page.try_block Stub.mathjs Stub.Math_pow
         (Page.setEquation "x^2 - 4" Scenario.after_A)
       = Return (Page.results Scenario.after_A).
Proof.
  edestruct (page_rounding_is_display_only Stub.mathjs Stub.Math_pow
               Scenario.A (Page.results Scenario.after_A) 0)
    as [(x & fx & fpx & fppx & Hx & Hf & Hf' & _ & Hnext & _) Hsame].
  - vm_compute. reflexivity.
  - vm_compute. reflexivity.
  - vm_compute. reflexivity.
  - eexists. split; [exact Hnext|]. split.
    + vm_compute in Hx. injection Hx as <-.
      vm_compute in Hf. injection Hf as <-.
      vm_compute in Hf'. injection Hf' as <-.
      vm_compute. reflexivity.
    + apply Hsame; reflexivity.
Defined.

(** ** More properties of the page *)

Section PageExtras.

Variable mathjs : MathJS.
Variable Math_pow : number -> number -> number.

Local Abbreviation f := (Page.f mathjs).
Local Abbreviation fPrime := (Page.fPrime mathjs).
Local Abbreviation fDoublePrime := (Page.fDoublePrime mathjs).
Local Abbreviation loop_vars := (Page.loop_vars mathjs Math_pow).
Local Abbreviation try_block := (Page.try_block mathjs Math_pow).
Local Abbreviation calculateNewtonRaphson := (Page.calculateNewtonRaphson mathjs Math_pow).
Local Abbreviation x0_entering := (Trace.x0_entering mathjs Math_pow).
Local Abbreviation shown := (Trace.shown Math_pow).

(** The records of a run that returned are numbered 1, 2, ... in order, so
    the keys of the table rows are distinct. *)
Theorem record_numbering st all :
  try_block st = Return all ->
  (forall k r, nth_error all k = Some r ->
     Page.iteration r = (Z.of_nat k + 1)%Z)
  /\ NoDup (List.map Page.iteration all).
Proof.
  intros Hrun. destruct (try_block_returns _ _ st all Hrun) as [xn Hn].
  assert (Hnum : forall k r, nth_error all k = Some r ->
                   Page.iteration r = (Z.of_nat k + 1)%Z).
  { intros k r Hr.
    destruct (record_of_pass _ _ st _ xn all k r Hn Hr)
      as (x & fx & fpx & fppx & _ & _ & _ & _ & _ & _ & ->). reflexivity. }
  split; [exact Hnum|].
  apply (proj2 (NoDup_nth_error _)). intros i j Hi Hij.
  rewrite length_map in Hi. rewrite !nth_error_map in Hij.
  destruct (nth_error all i) as [ri|] eqn:Hri.
  2:{ apply nth_error_None in Hri. lia. }
  destruct (nth_error all j) as [rj|] eqn:Hrj; [|discriminate].
  cbn in Hij. injection Hij as Hij.
  rewrite (Hnum i ri Hri), (Hnum j rj Hrj) in Hij. lia.
Qed.

(** The fields of a record follow the method of the run: under standard the
    record has no [fppx] and carries the standard formula; under modified it
    shows [f''] of the entering iterate and carries the modified formula; in
    both it shows [f] and [f'] of the entering iterate with two decimals. *)
Theorem record_fields_follow_method st all k r :
  try_block st = Return all ->
  nth_error all k = Some r ->
  exists x fx fpx fppx,
    x0_entering st k = Return x
    /\ f st x = Return fx /\ fPrime st x = Return fpx
    /\ fDoublePrime st x = Return fppx
    /\ Page.fx r = toFixed fx 2
    /\ Page.fpx r = toFixed fpx 2
    /\ (Page.method st = standard ->
          Page.fppx r = None /\ Page.formula r = formula_standard)
    /\ (Page.method st = modified ->
          Page.fppx r = Some (toFixed fppx 2)
          /\ Page.formula r = formula_modified).
Proof.
  intros Hrun Hr. destruct (try_block_returns _ _ st all Hrun) as [xn Hn].
  destruct (record_of_pass _ _ st _ xn all k r Hn Hr)
    as (x & fx & fpx & fppx & _ & Hx & Hf & Hf' & Hf'' & _ & ->).
  exists x, fx, fpx, fppx.
  repeat (split; [assumption|]).
  split; [reflexivity|]. split; [reflexivity|].
  split; intros Hm; cbn [Page.fppx Page.formula Trace.shown]; rewrite Hm;
    split; reflexivity.
Qed.

(** With an iteration count below 1 the handler evaluates nothing: whatever
    the equation and the evaluator, the run returns no record, clears the
    results and sets no error. *)
Theorem no_pass_without_count st :
  (Page.iterations st <= 0)%Z ->
  try_block st = Return []
  /\ Page.results (calculateNewtonRaphson st) = []
  /\ Page.st_error (calculateNewtonRaphson st) = ""
  /\ Page.loading (calculateNewtonRaphson st) = false.
Proof.
  intros Hle. unfold Page.calculateNewtonRaphson, Page.try_block.
  replace (Z.to_nat (Page.iterations st)) with O by lia.
  cbn. split; [reflexivity|]. split; [reflexivity|]. split; reflexivity.
Qed.

(** The true-root text reaches the [et] field only: a run with another text
    returns as many records, equal to the old ones in every other field. *)
Theorem true_root_only_changes_et st t all :
  try_block st = Return all ->
  exists all',
    try_block (Page.setTrueRoot t st) = Return all'
    /\ List.length all' = List.length all
    /\ forall k r r',
         nth_error all k = Some r -> nth_error all' k = Some r' ->
         Page.iteration r' = Page.iteration r
         /\ Page.x r' = Page.x r /\ Page.fx r' = Page.fx r
         /\ Page.fpx r' = Page.fpx r /\ Page.fppx r' = Page.fppx r
         /\ Page.x_next r' = Page.x_next r /\ Page.error r' = Page.error r
         /\ Page.formula r' = Page.formula r.
Proof.
  intros Hrun. destruct (try_block_returns _ _ st all Hrun) as [xn Hn].
  pose proof (loop_vars_trueRoot mathjs Math_pow st t
                (Z.to_nat (Page.iterations st))) as Hsame.
  rewrite Hn in Hsame.
  destruct (loop_vars (Page.setTrueRoot t st) (Z.to_nat (Page.iterations st)))
    as [[xn' all']|e] eqn:Hn'; [|contradiction].
  change (Z.to_nat (Page.iterations st))
    with (Z.to_nat (Page.iterations (Page.setTrueRoot t st))) in Hn'.
  exists all'.
  destruct (try_block_of_loop _ _ (Page.setTrueRoot t st) xn' all' Hn') as [Hrun' _].
  split; [exact Hrun'|].
  destruct (loop_vars_prefix _ _ st _ xn all Hn) as [Hlen Hpre].
  destruct (loop_vars_prefix _ _ (Page.setTrueRoot t st) _ xn' all' Hn') as [Hlen' _].
  split; [now rewrite Hlen, Hlen'|].
  intros k r r' Hr Hr'.
  destruct (record_of_pass _ _ st _ xn all k r Hn Hr)
    as (x & fx & fpx & fppx & _ & Hx & Hf & Hf' & Hf'' & _ & ->).
  destruct (record_of_pass _ _ (Page.setTrueRoot t st) _ xn' all' k r' Hn' Hr')
    as (y & fy & fpy & fppy & _ & Hy & Hg & Hg' & Hg'' & _ & ->).
  assert (Hxy : y = x).
  { pose proof (loop_vars_trueRoot mathjs Math_pow st t k) as Hk.
    unfold Trace.x0_entering in Hx, Hy.
    destruct (loop_vars st k) as [[a rs]|e]; [|discriminate].
    destruct (loop_vars (Page.setTrueRoot t st) k) as [[b rs']|e]; [|contradiction].
    cbn in Hx, Hy. injection Hx as <-. injection Hy as <-. now subst. }
  subst y.
  change (f (Page.setTrueRoot t st) x) with (f st x) in Hg. rewrite Hf in Hg. injection Hg as <-.
  change (fPrime (Page.setTrueRoot t st) x) with (fPrime st x) in Hg'.
  rewrite Hf' in Hg'. injection Hg' as <-.
  change (fDoublePrime (Page.setTrueRoot t st) x) with (fDoublePrime st x) in Hg''.
  rewrite Hf'' in Hg''. injection Hg'' as <-.
  cbn. repeat (split; [reflexivity|]). reflexivity.
Qed.

(** Pressing Calculate twice gives the state of pressing it once: a run
    reads nothing that a run writes, and each run starts from an empty list
    of records.  The handler leaves the five form fields as they are. *)
Theorem calculate_twice st :
  calculateNewtonRaphson (calculateNewtonRaphson st)
  = calculateNewtonRaphson st
  /\ Page.equation (calculateNewtonRaphson st) = Page.equation st
  /\ Page.initialGuess (calculateNewtonRaphson st) = Page.initialGuess st
  /\ Page.iterations (calculateNewtonRaphson st) = Page.iterations st
  /\ Page.method (calculateNewtonRaphson st) = Page.method st
  /\ Page.trueRoot (calculateNewtonRaphson st) = Page.trueRoot st.
Proof.
  assert (Hframe :
    Page.equation (calculateNewtonRaphson st) = Page.equation st
    /\ Page.initialGuess (calculateNewtonRaphson st) = Page.initialGuess st
    /\ Page.iterations (calculateNewtonRaphson st) = Page.iterations st
    /\ Page.method (calculateNewtonRaphson st) = Page.method st
    /\ Page.trueRoot (calculateNewtonRaphson st) = Page.trueRoot st).
  { unfold Page.calculateNewtonRaphson. destruct (try_block st);
      (split; [reflexivity|]); (split; [reflexivity|]);
      (split; [reflexivity|]); split; reflexivity. }
  split; [|exact Hframe].
  assert (Hsame : try_block (calculateNewtonRaphson st) = try_block st).
  { unfold Page.try_block.
    replace (Page.iterations (calculateNewtonRaphson st))
      with (Page.iterations st)
      by (unfold Page.calculateNewtonRaphson;
          destruct (try_block st); reflexivity).
    rewrite (loop_vars_same_fields mathjs Math_pow
               (calculateNewtonRaphson st) st);
      try reflexivity;
      unfold Page.calculateNewtonRaphson; destruct (try_block st);
      reflexivity. }
  unfold Page.calculateNewtonRaphson at 1. rewrite Hsame.
  unfold Page.calculateNewtonRaphson.
  destruct (try_block st); reflexivity.
Qed.

End PageExtras.

(** ** More facts on binary64 arithmetic and on the texts of numbers *)

Section SignFacts.

Local Open Scope float_scope.

Lemma binary_round_aux_sign (s : bool) (m e : Z) (l : location) :
  match binary_round_aux prec emax s m e l with
  | S754_zero s' | S754_infinity s' | S754_finite s' _ _ => s' = s
  | S754_nan => True
  end.
Proof.
  unfold binary_round_aux.
  destruct (shr_fexp prec emax m e l) as [mrs' e'].
  destruct (shr_fexp prec emax _ e' loc_Exact) as [mrs'' e''].
  destruct (shr_m mrs''); try reflexivity; try exact I.
  destruct (Z.leb e'' (Z.sub emax prec)); reflexivity.
Qed.

(** [Math.abs(v) * 100] is [NaN] or has a clear sign bit. *)
Lemma abs_times_100_sign (v : number) : sign_bit (abs v * 100) = false.
Proof.
  unfold sign_bit. rewrite mul_spec, abs_spec.
  replace (Prim2SF 100) with (S754_finite false 7036874417766400 (-46))
    by (vm_compute; reflexivity).
  unfold SF64mul.
  destruct (Prim2SF v) as [s|s| |s m e]; cbn [SFabs SFmul xorb];
    try reflexivity.
  pose proof (binary_round_aux_sign false
                (Zpos (Pos.mul m 7036874417766400)) (Z.add e (-46))
                loc_Exact) as H.
  destruct (binary_round_aux prec emax false _ _ loc_Exact);
    try assumption; reflexivity.
Qed.

Lemma is_zero_intro (v : number) (s : bool) :
  Prim2SF v = S754_zero s -> is_zero v = true.
Proof.
  intros H. unfold is_zero. rewrite eqb_spec, H.
  replace (Prim2SF zero) with (S754_zero false) by (vm_compute; reflexivity).
  reflexivity.
Qed.

(** A finite number other than the zeros. *)
Lemma finite_nonzero_spec (v : number) :
  isFinite v = true -> is_zero v = false ->
  exists s m e, Prim2SF v = S754_finite s m e.
Proof.
  unfold isFinite. intros Hfin Hnz.
  destruct (Prim2SF v) as [s|s| |s m e] eqn:Hv; try discriminate.
  - rewrite (is_zero_intro v s Hv) in Hnz. discriminate.
  - now exists s, m, e.
Qed.

Lemma is_nan_spec (v : number) : is_nan v = false -> Prim2SF v <> S754_nan.
Proof.
  unfold is_nan. rewrite eqb_spec. intros H Hv. rewrite Hv in H.
  discriminate.
Qed.

(** A zero divided by a number that is neither [NaN] nor a zero is a zero. *)
Lemma zero_div (a b : number) :
  is_zero a = true -> is_nan b = false -> is_zero b = false ->
  is_zero (a / b) = true.
Proof.
  intros Ha Hnan Hnz. destruct (is_zero_spec a Ha) as [sa Hsa].
  pose proof (is_nan_spec b Hnan) as Hb.
  destruct (Prim2SF b) as [sb|sb| |sb mb eb] eqn:Hpb.
  - rewrite (is_zero_intro b sb Hpb) in Hnz. discriminate.
  - apply (is_zero_intro _ (xorb sa sb)).
    rewrite div_spec, Hsa, Hpb. reflexivity.
  - contradiction.
  - apply (is_zero_intro _ (xorb sa sb)).
    rewrite div_spec, Hsa, Hpb. reflexivity.
Qed.

(** Subtracting a zero from a finite number other than the zeros leaves
    it. *)
Lemma sub_zero (a z : number) :
  isFinite a = true -> is_zero a = false -> is_zero z = true -> a - z = a.
Proof.
  intros Hfin Hnz Hz. destruct (is_zero_spec z Hz) as [sz Hsz].
  destruct (finite_nonzero_spec a Hfin Hnz) as (s & m & e & Ha).
  apply Prim2SF_inj. rewrite sub_spec, Ha, Hsz. reflexivity.
Qed.

(** [Math.abs((a - a) / a) * 100] is 0 for a finite number other than the
    zeros. *)
Lemma relative_error_of_self (a : number) :
  isFinite a = true -> is_zero a = false -> abs ((a - a) / a) * 100 = 0.
Proof.
  intros Hfin Hnz.
  destruct (finite_nonzero_spec a Hfin Hnz) as (s & m & e & Ha).
  apply Prim2SF_inj.
  rewrite mul_spec, abs_spec, div_spec, sub_spec, Ha.
  replace (Prim2SF 100) with (S754_finite false 7036874417766400 (-46))
    by (vm_compute; reflexivity).
  replace (Prim2SF 0) with (S754_zero false) by (vm_compute; reflexivity).
  unfold SF64sub, SFsub. rewrite Z.sub_diag.
  reflexivity.
Qed.

Lemma decimal_no_minus (z : Z) (t : string) :
  starts_with_minus (decimal z ++ t) = false
  /\ decimal z <> "".
Proof.
  unfold decimal, NilZero.string_of_uint.
  destruct (N.to_uint (Z.to_N z)); cbn; split; try reflexivity;
    discriminate.
Qed.

Lemma string_append_assoc (a b c : string) : (a ++ b) ++ c = a ++ (b ++ c).
Proof. induction a as [|ch a IH]; cbn; [reflexivity|now rewrite IH]. Qed.

Lemma substring_head_no_minus (j : nat) (m t : string) :
  starts_with_minus m = false ->
  starts_with_minus (substring 0 j m ++ String "." t) = false.
Proof.
  intros Hm. destruct j as [|j], m as [|c r]; cbn; try reflexivity.
  exact Hm.
Qed.

Lemma fixed_point_no_minus (n : Z) (f : nat) (t : string) :
  starts_with_minus (fixed_point n f ++ t) = false.
Proof.
  unfold fixed_point. destruct f as [|f]; [apply decimal_no_minus|].
  set (m := decimal n).
  assert (Hm : starts_with_minus m = false).
  { destruct (decimal_no_minus n "") as [H _]. fold m in H.
    destruct m; [reflexivity|exact H]. }
  set (m' := if (String.length m <=? S f)%nat
             then zeros (S f + 1 - String.length m) ++ m else m).
  assert (Hm' : starts_with_minus m' = false).
  { subst m'. destruct (String.length m <=? S f)%nat; [|exact Hm].
    destruct (S f + 1 - String.length m)%nat; [exact Hm|reflexivity]. }
  rewrite string_append_assoc.
  apply substring_head_no_minus. exact Hm'.
Qed.

Lemma toString_large_no_minus (x : number) (v : Z) (t : string) :
  starts_with_minus (toString_large x v ++ t) = false.
Proof.
  unfold toString_large.
  destruct (shortest_digits 17 1 _ v x) as [s n].
  destruct (decimal_no_minus s "") as [H Hne].
  destruct (decimal s) as [|c [|c' r]]; [contradiction| |]; exact H.
Qed.

(** The text of a number with a clear sign bit has no minus sign. *)
Lemma toFixed_no_minus (v : number) (digits : nat) (t : string) :
  sign_bit v = false -> starts_with_minus (toFixed v digits ++ t) = false.
Proof.
  unfold sign_bit, toFixed.
  destruct (Prim2SF v) as [s|s| |s m e]; intros Hs; try subst s;
    try reflexivity.
  - apply fixed_point_no_minus.
  - destruct (match e with Zneg _ => false | _ => _ end).
    + apply toString_large_no_minus.
    + apply fixed_point_no_minus.
Qed.

End SignFacts.

(** ** Errors shown, and exact roots *)

Section PageErrors.

Variable mathjs : MathJS.
Variable Math_pow : number -> number -> number.

Local Open Scope float_scope.

Local Abbreviation f := (Page.f mathjs).
Local Abbreviation fPrime := (Page.fPrime mathjs).
Local Abbreviation fDoublePrime := (Page.fDoublePrime mathjs).
Local Abbreviation loop_vars := (Page.loop_vars mathjs Math_pow).
Local Abbreviation try_block := (Page.try_block mathjs Math_pow).
Local Abbreviation x0_entering := (Trace.x0_entering mathjs Math_pow).

Lemma Ea_sign (x x1 : number) : sign_bit (Spec.Ea x x1) = false.
Proof. unfold Spec.Ea. rewrite <- abs_div. apply abs_times_100_sign. Qed.

Lemma Et_sign (T x1 : number) : sign_bit (Spec.Et T x1) = false.
Proof. unfold Spec.Et. rewrite <- abs_div. apply abs_times_100_sign. Qed.

(** The two errors are never negative: [calculateError] gives [NaN] or a
    number with a clear sign bit, whatever its arguments, and in every record
    of a run that returned neither the [error] text nor the [et] text begins
    with a minus sign. *)
Theorem errors_never_negative st all k r :
  try_block st = Return all ->
  nth_error all k = Some r ->
  starts_with_minus (Page.error r) = false
  /\ starts_with_minus (Page.et r) = false
  /\ forall current previous,
       sign_bit (Page.calculateError current previous) = false.
Proof.
  intros Hrun Hr. destruct (try_block_returns _ _ st all Hrun) as [xn Hn].
  destruct (record_of_pass _ _ st _ xn all k r Hn Hr)
    as (x & fx & fpx & fppx & _ & _ & _ & _ & _ & _ & ->).
  cbn [Page.error Page.et Trace.shown].
  split; [apply toFixed_no_minus, Ea_sign|].
  split; [apply toFixed_no_minus, Et_sign|].
  intros current previous. apply abs_times_100_sign.
Qed.

(** The standard update at an exact root: when [f] evaluates to a zero and
    [f'] to a number that is neither [NaN] nor a zero, a finite iterate other
    than the zeros is left unchanged. *)
Lemma standard_update_at_root (x fx fpx fppx : number) :
  isFinite x = true -> is_zero x = false ->
  is_zero fx = true -> is_nan fpx = false -> is_zero fpx = false ->
  Spec.x_next Math_pow standard x fx fpx fppx = x.
Proof.
  intros Hfin Hnz Hfx Hnan Hfpx. cbn [Spec.x_next].
  apply sub_zero; try assumption. now apply zero_div.
Qed.

(** No exit on convergence, seen at an exact root.  Under standard, once the
    iterate entering a pass is a finite number other than the zeros where [f]
    evaluates to a zero and [f'] to a number that is neither [NaN] nor a
    zero, that pass and every later one carry the same iterate on and record
    it as [x] and as [x_next] with the approximate error [0.00%]; the true
    error is [0.00%] too when the true-root text parses to that iterate. *)
Theorem exact_root_is_repeated st all k x fx fpx :
  Page.method st = standard ->
  try_block st = Return all ->
  x0_entering st k = Return x ->
  isFinite x = true -> is_zero x = false ->
  f st x = Return fx -> is_zero fx = true ->
  fPrime st x = Return fpx -> is_nan fpx = false -> is_zero fpx = false ->
  forall j r, (k <= j)%nat -> nth_error all j = Some r ->
    x0_entering st (S j) = Return x
    /\ Page.x r = toFixed x 2
    /\ Page.x_next r = toFixed x 2
    /\ Page.error r = "0.00%"
    /\ (parseFloat (Page.trueRoot st) = x -> Page.et r = "0.00%").
Proof.
  intros Hm Hrun Hx Hfin Hnz Hf Hfx Hf' Hnan Hfpx.
  destruct (try_block_returns _ _ st all Hrun) as [xn Hn].
  assert (Hpass : forall j r, nth_error all j = Some r ->
            x0_entering st j = Return x ->
            x0_entering st (S j) = Return x
            /\ r = Trace.shown Math_pow st (Z.of_nat j) x fx fpx 0).
  { intros j r Hr Hxj.
    destruct (record_of_pass _ _ st _ xn all j r Hn Hr)
      as (y & fy & fpy & fppy & _ & Hy & Hg & Hg' & _ & Hnext & ->).
    rewrite Hxj in Hy. injection Hy as <-.
    rewrite Hf in Hg. injection Hg as <-.
    rewrite Hf' in Hg'. injection Hg' as <-.
    rewrite Hm in Hnext.
    rewrite standard_update_at_root in Hnext by assumption.
    split; [exact Hnext|].
    unfold Trace.shown. rewrite Hm. reflexivity. }
  assert (Hstay : forall j, (k <= j)%nat -> (j <= List.length all)%nat ->
            x0_entering st j = Return x).
  { induction j as [|j IH]; intros Hkj Hj.
    - now replace k with O in Hx by lia.
    - destruct (Nat.eq_dec k (S j)) as [->|Hne]; [exact Hx|].
      destruct (nth_error all j) as [r|] eqn:Hr.
      2:{ apply nth_error_None in Hr. lia. }
      apply (Hpass j r Hr). apply IH; lia. }
  intros j r Hkj Hr.
  assert (Hj : (j < List.length all)%nat)
    by (apply nth_error_Some; now rewrite Hr).
  destruct (Hpass j r Hr (Hstay j Hkj ltac:(lia))) as [Hnext ->].
  split; [exact Hnext|].
  cbn [Page.x Page.x_next Page.error Page.et Trace.shown].
  rewrite Hm. rewrite standard_update_at_root by assumption.
  split; [reflexivity|]. split; [reflexivity|].
  assert (Hself : Spec.Ea x x = 0).
  { unfold Spec.Ea. rewrite <- abs_div.
    now apply relative_error_of_self. }
  split.
  - rewrite Hself. reflexivity.
  - intros HT.
    assert (Hroot : Page.trueRootValue st = x).
    { unfold Page.trueRootValue, or_else, ToBoolean. rewrite HT.
      destruct (finite_nonzero_spec x Hfin Hnz) as (s & m & e & Hv).
      assert (Hnn : is_nan x = false).
      { unfold is_nan. rewrite eqb_spec, Hv. cbn.
        rewrite Z.compare_refl, Pos.compare_cont_refl. now destruct s. }
      now rewrite Hnn, Hnz. }
    rewrite Hroot. unfold Spec.Et. rewrite <- abs_div.
    rewrite relative_error_of_self by assumption. reflexivity.
Qed.

End PageErrors.

(** ** What is on screen after a run *)

Section PageView.

Variable mathjs : MathJS.
Variable Math_pow : number -> number -> number.

Local Abbreviation try_block := (Page.try_block mathjs Math_pow).
Local Abbreviation calculateNewtonRaphson := (Page.calculateNewtonRaphson mathjs Math_pow).

Lemma calculate_cases st :
  (exists all,
     try_block st = Return all
     /\ calculateNewtonRaphson st
        = Page.setLoading false
            (Page.setResults all
               (Page.setError "" (Page.setLoading true st))))
  \/ (exists err,
        try_block st = Throw err
        /\ calculateNewtonRaphson st
           = Page.setLoading false
               (Page.setError (catch_message err)
                  (Page.setError "" (Page.setLoading true st)))).
Proof.
  unfold Page.calculateNewtonRaphson.
  destruct (try_block st) as [all|err]; [left|right]; eauto.
Qed.

(** After the handler has run the button is enabled again.  A run that
    returned hides the error box and shows one row per record under the
    header of the current method, or no table when there is no record.  A
    run that threw shows the error box with the message, and leaves on
    screen the table that was there before. *)
Theorem screen_after_calculate st :
  View.button_disabled (View.render (calculateNewtonRaphson st)) = false
  /\ View.button_text (View.render (calculateNewtonRaphson st)) = "Calculate"
  /\ (forall all, try_block st = Return all ->
        View.error_box (View.render (calculateNewtonRaphson st)) = None
        /\ (all = [] ->
              View.results_table (View.render (calculateNewtonRaphson st))
              = None)
        /\ (all <> [] ->
              View.results_table (View.render (calculateNewtonRaphson st))
              = Some {| View.header := View.header_cells (Page.method st);
                        View.rows := List.map
                                       (View.row_cells (Page.method st))
                                       all |}))
  /\ (forall err, try_block st = Throw err ->
        View.error_box (View.render (calculateNewtonRaphson st))
        = Some (catch_message err)
        /\ View.results_table (View.render (calculateNewtonRaphson st))
           = View.results_table (View.render st)).
Proof.
  destruct (calculate_cases st) as [(all & Hrun & ->)|(err & Hrun & ->)].
  - split; [reflexivity|]. split; [reflexivity|]. split.
    + intros all' Hrun'. rewrite Hrun in Hrun'. injection Hrun' as <-.
      split; [reflexivity|]. split.
      * intros ->. reflexivity.
      * intros Hne. destruct all as [|r all]; [contradiction|reflexivity].
    + intros err Herr. rewrite Hrun in Herr. discriminate.
  - split; [reflexivity|]. split; [reflexivity|]. split.
    + intros all Hall. rewrite Hrun in Hall. discriminate.
    + intros err' Herr. rewrite Hrun in Herr. injection Herr as <-.
      split; reflexivity.
Qed.

Lemma render_table_nonempty st :
  Page.results st <> [] ->
  View.results_table (View.render st)
  = Some {| View.header := View.header_cells (Page.method st);
            View.rows := List.map (View.row_cells (Page.method st))
                           (Page.results st) |}.
Proof.
  unfold View.render. cbn [View.results_table].
  destruct (Page.results st); [contradiction|reflexivity].
Qed.

(** The table follows the method selected now, not the method of the run
    that made the records.  After a standard run, clicking an example of the
    modified method (without recalculating) keeps every row on screen under
    a header with the [f''] column, and that column is empty in every row.
    In every state a row has as many cells as the header. *)
Theorem stale_rows_after_example st all example :
  Page.method st = standard ->
  try_block st = Return all ->
  all <> [] ->
  Gallery.method example = modified ->
  (exists t,
     View.results_table
       (View.render (Gallery.loadExample example (calculateNewtonRaphson st)))
     = Some t
     /\ nth_error (View.header t) 4 = Some "f''(x)"
     /\ List.length (View.rows t) = List.length all
     /\ forall row, In row (View.rows t) -> nth_error row 4 = Some "")
  /\ forall st' t row,
       View.results_table (View.render st') = Some t ->
       In row (View.rows t) ->
       List.length row = List.length (View.header t).
Proof.
  intros Hm Hrun Hne Hex. split.
  - destruct (calculate_cases st) as [(all' & Hrun' & ->)|(err & Hrun' & _)].
    2:{ rewrite Hrun in Hrun'. discriminate. }
    rewrite Hrun in Hrun'. injection Hrun' as <-.
    eexists. split; [apply render_table_nonempty; exact Hne|].
    cbn [View.header View.rows Gallery.loadExample Gallery.setMethod
         Page.method Page.results Gallery.setInitialGuess Page.setEquation
         Page.setLoading Page.setResults Page.setError].
    rewrite Hex. split; [reflexivity|].
    split; [apply length_map|].
    intros row Hin. apply in_map_iff in Hin.
    destruct Hin as (r & <- & Hr).
    apply In_nth_error in Hr. destruct Hr as [k Hk].
    destruct (try_block_returns _ _ st all Hrun) as [xn Hn].
    destruct (record_of_pass _ _ st _ xn all k r Hn Hk)
      as (x & fx & fpx & fppx & _ & _ & _ & _ & _ & _ & ->).
    unfold View.row_cells, Trace.shown. cbn [Page.fppx]. rewrite Hm.
    reflexivity.
  - intros st' t row Ht Hin. unfold View.render in Ht.
    cbn [View.results_table] in Ht.
    destruct (0 <? List.length (Page.results st'))%nat; [|discriminate].
    injection Ht as <-. cbn [View.rows View.header] in Hin |- *.
    apply in_map_iff in Hin. destruct Hin as (r & <- & _).
    unfold View.row_cells, View.header_cells.
    destruct (Page.method st'); reflexivity.
Qed.

End PageView.

(** ** Properties of the other copy of the page *)

Section OtherPageProperties.

Variable mathjs : MathJS.
Variable Math_pow : number -> number -> number.

Local Open Scope float_scope.

Local Abbreviation f := (OtherPage.f mathjs).
Local Abbreviation fPrime := (OtherPage.fPrime mathjs).
Local Abbreviation fDoublePrime := (OtherPage.fDoublePrime mathjs).
Local Abbreviation loop_body := (OtherPage.loop_body mathjs Math_pow).
Local Abbreviation for_loop := (OtherPage.for_loop mathjs Math_pow).
Local Abbreviation loop_vars := (OtherPage.loop_vars mathjs Math_pow).
Local Abbreviation try_block := (OtherPage.try_block mathjs Math_pow).
Local Abbreviation calculateNewtonRaphson := (OtherPage.calculateNewtonRaphson mathjs Math_pow).
Local Abbreviation x0_entering := (OtherTrace.x0_entering mathjs Math_pow).
Local Abbreviation carried := (OtherTrace.carried Math_pow).
Local Abbreviation shown := (OtherTrace.shown Math_pow).
Local Abbreviation evaluator_succeeds := (OtherTrace.evaluator_succeeds mathjs Math_pow).

Lemma other_loop_body_shown st i x0 rs :
  loop_body st i (x0, rs)
  = bind (f st x0) (fun a =>
    bind (fPrime st x0) (fun b =>
    bind (fDoublePrime st x0) (fun c =>
      Return (carried st x0 a b c, push rs (shown st i x0 a b c))))).
Proof.
  unfold OtherPage.loop_body, OtherTrace.shown, OtherTrace.carried,
    Spec.x_next.
  destruct (f st x0) as [a|e]; [|reflexivity].
  destruct (fPrime st x0) as [b|e]; [|reflexivity].
  destruct (fDoublePrime st x0) as [c|e]; [|reflexivity].
  cbn [bind]. destruct (OtherPage.method st); reflexivity.
Qed.

Lemma other_for_loop_snoc st n i vars :
  for_loop st (S n) i vars
  = bind (for_loop st n i vars) (loop_body st (i + Z.of_nat n)%Z).
Proof.
  revert i vars. induction n as [|n IH]; intros i vars.
  - cbn [OtherPage.for_loop bind]. replace (i + Z.of_nat 0)%Z with i by lia.
    destruct (loop_body st i vars); reflexivity.
  - change (for_loop st (S (S n)) i vars)
      with (bind (loop_body st i vars) (for_loop st (S n) (i + 1)%Z)).
    change (for_loop st (S n) i vars)
      with (bind (loop_body st i vars) (for_loop st n (i + 1)%Z)).
    destruct (loop_body st i vars) as [vars'|e]; [|reflexivity].
    cbn [bind]. rewrite IH. do 2 f_equal. lia.
Qed.

Lemma other_loop_vars_S st k :
  loop_vars st (S k) = bind (loop_vars st k) (loop_body st (Z.of_nat k)).
Proof. unfold OtherPage.loop_vars. now rewrite other_for_loop_snoc. Qed.

Lemma other_loop_vars_step st k xk rs x' rs' :
  loop_vars st k = Return (xk, rs) ->
  loop_vars st (S k) = Return (x', rs') ->
  exists a b c,
    f st xk = Return a /\ fPrime st xk = Return b
    /\ fDoublePrime st xk = Return c
    /\ x' = carried st xk a b c
    /\ rs' = push rs (shown st (Z.of_nat k) xk a b c).
Proof.
  intros Hk. rewrite other_loop_vars_S, Hk. cbn [bind].
  rewrite other_loop_body_shown.
  destruct (f st xk) as [a|e]; [|discriminate].
  destruct (fPrime st xk) as [b|e]; [|discriminate].
  destruct (fDoublePrime st xk) as [c|e]; [|discriminate].
  cbn [bind]. intros H. injection H as <- <-.
  exists a, b, c. split; [reflexivity|]. split; [reflexivity|].
  split; [reflexivity|]. split; reflexivity.
Qed.

Lemma other_loop_vars_prefix st n xn all :
  loop_vars st n = Return (xn, all) ->
  List.length all = n
  /\ forall k, (k <= n)%nat ->
       exists xk, loop_vars st k = Return (xk, firstn k all).
Proof.
  revert xn all. induction n as [|n IH]; intros xn all Hn.
  - unfold OtherPage.loop_vars in Hn. cbn in Hn. injection Hn as <- <-.
    split; [reflexivity|]. intros k Hk. replace k with O by lia.
    now exists (parseFloat (OtherPage.initialGuess st)).
  - destruct (loop_vars st n) as [[x rs]|e] eqn:Hprev.
    2:{ rewrite other_loop_vars_S, Hprev in Hn. discriminate. }
    destruct (other_loop_vars_step st n x rs xn all Hprev Hn)
      as (a & b & c & _ & _ & _ & _ & Hall).
    destruct (IH x rs eq_refl) as [Hlen Hpre].
    subst all. unfold push. split.
    + rewrite length_app. cbn. lia.
    + intros k Hk. destruct (Nat.eq_dec k (S n)) as [->|Hne].
      * exists xn. rewrite firstn_all2; [assumption|].
        rewrite length_app. cbn. lia.
      * destruct (Hpre k ltac:(lia)) as [xk Hxk]. exists xk.
        rewrite firstn_app. replace (k - List.length rs)%nat with O by lia.
        cbn [firstn]. now rewrite app_nil_r.
Qed.

Lemma other_record_of_pass st n xn all k r :
  loop_vars st n = Return (xn, all) ->
  nth_error all k = Some r ->
  exists xk a b c,
    (k < n)%nat
    /\ x0_entering st k = Return xk
    /\ f st xk = Return a /\ fPrime st xk = Return b
    /\ fDoublePrime st xk = Return c
    /\ x0_entering st (S k) = Return (carried st xk a b c)
    /\ r = shown st (Z.of_nat k) xk a b c.
Proof.
  intros Hn Hr.
  destruct (other_loop_vars_prefix st n xn all Hn) as [Hlen Hpre].
  assert (Hk : (k < n)%nat).
  { rewrite <- Hlen. apply nth_error_Some. now rewrite Hr. }
  destruct (Hpre k ltac:(lia)) as [xk Hxk].
  destruct (Hpre (S k) ltac:(lia)) as [xk' Hxk'].
  destruct (other_loop_vars_step st k _ _ _ _ Hxk Hxk')
    as (a & b & c & Hf & Hf' & Hf'' & Hx & Hrs).
  exists xk, a, b, c.
  unfold OtherTrace.x0_entering. rewrite Hxk, Hxk'. cbn [bind fst].
  split; [assumption|]. split; [reflexivity|].
  split; [assumption|]. split; [assumption|]. split; [assumption|].
  split; [now subst xk'|].
  assert (Hnth : nth_error (firstn (S k) all) k = Some r).
  { rewrite nth_error_firstn.
    destruct (Nat.ltb_spec k (S k)); [assumption|lia]. }
  rewrite Hrs in Hnth. unfold push in Hnth.
  rewrite nth_error_app2 in Hnth by (rewrite length_firstn; lia).
  rewrite length_firstn in Hnth.
  replace (k - Nat.min k (List.length all))%nat with O in Hnth by lia.
  cbn in Hnth. now injection Hnth as <-.
Qed.

Lemma other_try_block_returns st all :
  try_block st = Return all ->
  exists xn,
    loop_vars st (Z.to_nat (OtherPage.iterations st)) = Return (xn, all).
Proof.
  unfold OtherPage.try_block.
  destruct (loop_vars st _) as [[xn rs]|e]; [|discriminate].
  cbn. intros H. injection H as <-. now exists xn.
Qed.

Lemma other_loop_vars_returns st n :
  evaluator_succeeds st n ->
  exists xn all, loop_vars st n = Return (xn, all).
Proof.
  induction n as [|n IH]; intros Hev.
  - now exists (parseFloat (OtherPage.initialGuess st)), [].
  - destruct IH as (x & rs & Hn).
    { intros k x0 Hk. apply Hev. lia. }
    destruct (Hev n x ltac:(lia)) as (a & b & c & Hf & Hf' & Hf'').
    { unfold OtherTrace.x0_entering. now rewrite Hn. }
    rewrite other_loop_vars_S, Hn. cbn [bind]. rewrite other_loop_body_shown.
    rewrite Hf, Hf', Hf''. cbn [bind]. eauto.
Qed.

Lemma other_loop_vars_throws st k n err :
  loop_vars st (S k) = Throw err -> (k < n)%nat -> loop_vars st n = Throw err.
Proof.
  intros Hk Hlt. induction n as [|n IH]; [lia|].
  destruct (Nat.eq_dec k n) as [->|Hne]; [assumption|].
  rewrite other_loop_vars_S, IH by lia. reflexivity.
Qed.

(** The text of a number that is not finite parses back to a number that is
    not finite. *)
Lemma parse_toFixed_not_finite (v : number) :
  isFinite v = false -> isFinite (parseFloat (toFixed v 2)) = false.
Proof.
  unfold isFinite at 1, toFixed.
  destruct (Prim2SF v) as [s|s| |s m e]; try discriminate; intros _.
  - destruct s; vm_compute; reflexivity.
  - vm_compute. reflexivity.
Qed.


(** On the other copy, for every record of a run that returned: the iterate
    carried into the next pass is the update of the method printed with two
    decimals and parsed back; the record shows the entering iterate, that
    carried iterate, the values of [f] and [f'] after the same round trip
    through text, and the relative change between the carried and the
    entering iterate; records are numbered from 1. *)
Theorem other_page_trace_law st all k r :
  try_block st = Return all ->
  nth_error all k = Some r ->
  exists x a b c,
    x0_entering st k = Return x
    /\ f st x = Return a /\ fPrime st x = Return b
    /\ fDoublePrime st x = Return c
    /\ x0_entering st (S k)
       = Return (parseFloat
                   (toFixed (Spec.x_next Math_pow (OtherPage.method st)
                               x a b c) 2))
    /\ OtherPage.iteration r = (Z.of_nat k + 1)%Z
    /\ OtherPage.x r = toFixed x 2
    /\ OtherPage.x_next r
       = toFixed (parseFloat
                    (toFixed (Spec.x_next Math_pow (OtherPage.method st)
                                x a b c) 2)) 2
    /\ OtherPage.fx r = toFixed (parseFloat (toFixed a 2)) 2
    /\ OtherPage.fpx r = toFixed (parseFloat (toFixed b 2)) 2
    /\ OtherPage.error r
       = toFixed
           (abs ((parseFloat
                    (toFixed (Spec.x_next Math_pow (OtherPage.method st)
                                x a b c) 2) - x)
                 / parseFloat
                     (toFixed (Spec.x_next Math_pow (OtherPage.method st)
                                 x a b c) 2)) * 100) 2 ++ "%".
Proof.
  intros Hrun Hr. destruct (other_try_block_returns st all Hrun) as [xn Hn].
  destruct (other_record_of_pass st _ xn all k r Hn Hr)
    as (x & a & b & c & _ & Hx & Hf & Hf' & Hf'' & Hnext & ->).
  exists x, a, b, c.
  split; [assumption|]. split; [assumption|]. split; [assumption|].
  split; [assumption|]. split; [exact Hnext|].
  split; [reflexivity|]. split; [reflexivity|]. split; [reflexivity|].
  split; [reflexivity|]. split; reflexivity.
Qed.

(** On the other copy too the run has a fixed length: when the evaluator
    returns at every iterate reached, the handler stores exactly as many
    records as the iteration count and sets no error. *)
Theorem other_page_fixed_length st :
  evaluator_succeeds st (Z.to_nat (OtherPage.iterations st)) ->
  exists all,
    try_block st = Return all
    /\ List.length all = Z.to_nat (OtherPage.iterations st)
    /\ OtherPage.results (calculateNewtonRaphson st) = all
    /\ OtherPage.st_error (calculateNewtonRaphson st) = ""
    /\ OtherPage.loading (calculateNewtonRaphson st) = false.
Proof.
  intros Hev. destruct (other_loop_vars_returns st _ Hev) as (xn & all & Hn).
  destruct (other_loop_vars_prefix st _ xn all Hn) as [Hlen _].
  exists all. unfold OtherPage.calculateNewtonRaphson, OtherPage.try_block.
  rewrite Hn. cbn [bind snd].
  split; [reflexivity|]. split; [exact Hlen|].
  split; [reflexivity|]. split; reflexivity.
Qed.

(** On the other copy an exception of the evaluator in any pass ends the
    run: the handler shows the message after ["Error: "] and keeps the
    results the state held before, dropping the records of the passes
    done. *)
Theorem other_page_failure_aborts st k x err :
  (k < Z.to_nat (OtherPage.iterations st))%nat ->
  x0_entering st k = Return x ->
  (f st x = Throw err
   \/ (exists a, f st x = Return a /\ fPrime st x = Throw err)
   \/ (exists a b, f st x = Return a /\ fPrime st x = Return b
                   /\ fDoublePrime st x = Throw err)) ->
  try_block st = Throw err
  /\ OtherPage.results (calculateNewtonRaphson st) = OtherPage.results st
  /\ OtherPage.st_error (calculateNewtonRaphson st) = catch_message err
  /\ OtherPage.loading (calculateNewtonRaphson st) = false.
Proof.
  intros Hk Hx Hfail.
  assert (Hvars : exists rs, loop_vars st k = Return (x, rs)).
  { unfold OtherTrace.x0_entering in Hx.
    destruct (loop_vars st k) as [[x' rs]|e]; [|discriminate].
    cbn in Hx. injection Hx as <-. now exists rs. }
  destruct Hvars as [rs Hvars].
  assert (Hbody : loop_body st (Z.of_nat k) (x, rs) = Throw err).
  { rewrite other_loop_body_shown.
    destruct Hfail as [Hf|[(a & Hf & Hf')|(a & b & Hf & Hf' & Hf'')]].
    - now rewrite Hf.
    - now rewrite Hf, Hf'.
    - now rewrite Hf, Hf', Hf''. }
  assert (H : loop_vars st (Z.to_nat (OtherPage.iterations st)) = Throw err).
  { apply (other_loop_vars_throws st k); [|assumption].
    rewrite other_loop_vars_S, Hvars. exact Hbody. }
  unfold OtherPage.calculateNewtonRaphson, OtherPage.try_block. rewrite H.
  split; [reflexivity|]. split; [reflexivity|]. split; reflexivity.
Qed.

Lemma other_not_finite_stays st k xk :
  x0_entering st k = Return xk -> isFinite xk = false ->
  forall j xj, (k <= j)%nat -> x0_entering st j = Return xj ->
    isFinite xj = false.
Proof.
  intros Hk Hnf j. induction j as [|j IH]; intros xj Hle Hj.
  - replace k with O in Hk by lia. rewrite Hk in Hj. now injection Hj as <-.
  - destruct (Nat.eq_dec k (S j)) as [->|Hne].
    { rewrite Hk in Hj. now injection Hj as <-. }
    unfold OtherTrace.x0_entering in Hj.
    destruct (loop_vars st (S j)) as [[xj' rs']|e] eqn:Hj'; [|discriminate].
    cbn in Hj. injection Hj as ->.
    destruct (loop_vars st j) as [[x rs]|e] eqn:Hprev.
    2:{ rewrite other_loop_vars_S, Hprev in Hj'. discriminate. }
    destruct (other_loop_vars_step st j x rs xj rs' Hprev Hj')
      as (a & b & c & _ & _ & _ & Hx & _).
    assert (Hx_nf : isFinite x = false).
    { apply IH; [lia|]. unfold OtherTrace.x0_entering. now rewrite Hprev. }
    subst xj. unfold OtherTrace.carried. apply parse_toFixed_not_finite.
    unfold Spec.x_next.
    destruct (OtherPage.method st); now apply sub_not_finite_l.
Qed.

(** On the other copy an iterate that is not finite survives the round trip
    through text: once the iterate entering a pass is not finite, the record
    of that pass and of every later pass shows [x] and [x_next] as [NaN],
    [Infinity] or [-Infinity]. *)
Theorem other_page_not_finite_propagates st all k xk :
  try_block st = Return all ->
  x0_entering st k = Return xk ->
  isFinite xk = false ->
  forall j r, (k <= j)%nat -> nth_error all j = Some r ->
    non_finite_text (OtherPage.x r) /\ non_finite_text (OtherPage.x_next r).
Proof.
  intros Hrun Hk Hnf j r Hle Hr.
  destruct (other_try_block_returns st all Hrun) as [xn Hn].
  destruct (other_record_of_pass st _ xn all j r Hn Hr)
    as (x & a & b & c & _ & Hx & _ & _ & _ & Hnext & ->).
  split; apply toFixed_not_finite.
  - apply (other_not_finite_stays st k xk Hk Hnf j); [lia|assumption].
  - apply (other_not_finite_stays st k xk Hk Hnf (S j)); [lia|assumption].
Qed.

End OtherPageProperties.

(** ** The stub on the further scenarios *)

Lemma other_stub_succeeds_square st n :
  OtherPage.equation st = "x^2 - 4" ->
  OtherTrace.evaluator_succeeds Stub.mathjs Stub.Math_pow st n.
Proof.
  intros Heq k x0 _ _. exists (x0 * x0 - 4), (2 * x0), 2.
  unfold OtherPage.f, OtherPage.fPrime, OtherPage.fDoublePrime. rewrite Heq.
  split; [reflexivity|]. split; reflexivity.
Qed.

Lemma record_numbering_witness :
  List.map Page.iteration (Page.results Scenario.after_A) = [1; 2; 3]%Z
  /\ NoDup (List.map Page.iteration (Page.results Scenario.after_A)).
Proof.
  destruct (record_numbering Stub.mathjs Stub.Math_pow Scenario.A
              (Page.results Scenario.after_A)) as [_ Hnodup].
  - vm_compute. reflexivity.
  - split; [vm_compute; reflexivity|exact Hnodup].
Defined.

Lemma record_fields_follow_method_witness :
  exists r,
    nth_error (Page.results Scenario2.after_A_modified) 0 = Some r
    /\ Page.fppx r = Some "2.00"
    /\ Page.formula r = formula_modified.
Proof.
  edestruct (record_fields_follow_method Stub.mathjs Stub.Math_pow
               Scenario.A_modified
               (Page.results Scenario2.after_A_modified) 0)
    as (x & fx & fpx & fppx & _ & _ & _ & Hf'' & _ & _ & _ & Hmod).
  - vm_compute. reflexivity.
  - vm_compute. reflexivity.
  - eexists. split; [vm_compute; reflexivity|].
    destruct (Hmod eq_refl) as [_ Hformula].
    split; [reflexivity|exact Hformula].
Defined.

Lemma no_pass_without_count_witness :
  Page.try_block Stub.mathjs Stub.Math_pow Scenario2.undefined_no_pass
  = Return []
  /\ Page.st_error (Page.calculateNewtonRaphson Stub.mathjs Stub.Math_pow
                      Scenario2.undefined_no_pass) = ""
  /\ Page.f Stub.mathjs Scenario2.undefined_no_pass 3
     = Throw (ErrorInstance "Undefined symbol y").
Proof.
  destruct (no_pass_without_count Stub.mathjs Stub.Math_pow
              Scenario2.undefined_no_pass) as (Hrun & _ & Herr & _).
  - vm_compute. discriminate.
  - split; [exact Hrun|]. split; [exact Herr|reflexivity].
Defined.

Lemma true_root_only_changes_et_witness :
  exists all',
    Page.try_block Stub.mathjs Stub.Math_pow
      (Page.setTrueRoot "" Scenario.A) = Return all'
    /\ List.length all' = 3%nat
    /\ List.map Page.et all' = ["Infinity%"; "Infinity%"; "Infinity%"]
    /\ List.map Page.et (Page.results Scenario.after_A)
       = ["8.33%"; "0.32%"; "0.00%"].
Proof.
  destruct (true_root_only_changes_et Stub.mathjs Stub.Math_pow Scenario.A
              "" (Page.results Scenario.after_A))
    as (all' & Hrun & Hlen & _).
  - vm_compute. reflexivity.
  - exists all'. split; [exact Hrun|]. split; [exact Hlen|].
    assert (Hall : Return all'
                   = Page.try_block Stub.mathjs Stub.Math_pow
                       (Page.setTrueRoot "" Scenario.A))
      by (symmetry; exact Hrun).
    vm_compute in Hall. injection Hall as ->.
    split; vm_compute; reflexivity.
Defined.

Lemma errors_never_negative_witness :
  exists r,
    nth_error (Page.results Scenario.after_A) 1 = Some r
    /\ Page.error r = "7.99%"
    /\ starts_with_minus (Page.error r) = false
    /\ starts_with_minus (Page.et r) = false.
Proof.
  edestruct (errors_never_negative Stub.mathjs Stub.Math_pow Scenario.A
               (Page.results Scenario.after_A) 1) as (Hea & Het & _).
  - vm_compute. reflexivity.
  - vm_compute. reflexivity.
  - eexists. split; [vm_compute; reflexivity|].
    split; [reflexivity|]. split; [exact Hea|exact Het].
Defined.

(** [x^2 - 4] from the exact root 2: three records, all the same. *)
Lemma exact_root_is_repeated_witness :
  List.map Page.x_next
    (Page.results (Page.calculateNewtonRaphson Stub.mathjs Stub.Math_pow
                     Scenario2.at_root))
  = ["2.00"; "2.00"; "2.00"]
  /\ exists r,
       nth_error
         (Page.results (Page.calculateNewtonRaphson Stub.mathjs
                          Stub.Math_pow Scenario2.at_root)) 2 = Some r
       /\ Trace.x0_entering Stub.mathjs Stub.Math_pow Scenario2.at_root 3
          = Return 2
       /\ Page.error r = "0.00%" /\ Page.et r = "0.00%".
Proof.
  split; [vm_compute; reflexivity|].
  edestruct (exact_root_is_repeated Stub.mathjs Stub.Math_pow
               Scenario2.at_root
               (Page.results (Page.calculateNewtonRaphson Stub.mathjs
                                Stub.Math_pow Scenario2.at_root))
               0 2 0 4)
    as (Hnext & _ & _ & Hea & Het).
  - reflexivity.
  - vm_compute. reflexivity.
  - reflexivity.
  - vm_compute. reflexivity.
  - vm_compute. reflexivity.
  - vm_compute. reflexivity.
  - vm_compute. reflexivity.
  - vm_compute. reflexivity.
  - vm_compute. reflexivity.
  - vm_compute. reflexivity.
  - apply (Nat.le_0_l 2).
  - vm_compute. reflexivity.
  - eexists. split; [reflexivity|]. split; [exact Hnext|].
    split; [exact Hea|]. apply Het. vm_compute. reflexivity.
Defined.

(** Scenario A under standard, then a click on example 1 (modified). *)
Lemma stale_rows_after_example_witness :
  exists example t,
    nth_error Gallery.examples 0 = Some example
    /\ View.results_table
         (View.render (Gallery.loadExample example Scenario.after_A))
       = Some t
    /\ View.rows t
       = [["1"; "3.00"; "5.00"; "6.00"; ""; "2.17"; "38.46%"; "8.33%"];
          ["2"; "2.17"; "0.69"; "4.33"; ""; "2.01"; "7.99%"; "0.32%"];
          ["3"; "2.01"; "0.03"; "4.01"; ""; "2.00"; "0.32%"; "0.00%"]].
Proof.
  destruct (stale_rows_after_example Stub.mathjs Stub.Math_pow Scenario.A
              (Page.results Scenario.after_A)
              (nth 0 Gallery.examples
                 (Gallery.Build_ExampleProblem "" "" "" standard "")))
    as [(t & Ht & _) _].
  - reflexivity.
  - vm_compute. reflexivity.
  - vm_compute. discriminate.
  - reflexivity.
  - eexists _, t. split; [reflexivity|]. split; [exact Ht|].
    assert (Hsome : Some t
                    = View.results_table
                        (View.render
                           (Gallery.loadExample
                              (nth 0 Gallery.examples
                                 (Gallery.Build_ExampleProblem "" "" ""
                                    standard ""))
                              Scenario.after_A)))
      by (symmetry; exact Ht).
    vm_compute in Hsome. injection Hsome as ->. reflexivity.
Defined.

Lemma other_page_trace_law_witness :
  exists x,
    OtherTrace.x0_entering Stub.mathjs Stub.Math_pow Scenario.other_A 0
    = Return x
    /\ OtherTrace.x0_entering Stub.mathjs Stub.Math_pow Scenario.other_A 1
       = Return (parseFloat (toFixed (x - (x * x - 4) / (2 * x)) 2)).
Proof.
  edestruct (other_page_trace_law Stub.mathjs Stub.Math_pow Scenario.other_A
               (OtherPage.results
                  (OtherPage.calculateNewtonRaphson Stub.mathjs Stub.Math_pow
                     Scenario.other_A)) 0)
    as (x & a & b & c & Hx & Hf & Hf' & _ & Hnext & _).
  - vm_compute. reflexivity.
  - vm_compute. reflexivity.
  - exists x. split; [exact Hx|].
    unfold OtherPage.f in Hf. unfold OtherPage.fPrime in Hf'.
    cbn in Hf, Hf'. injection Hf as <-. injection Hf' as <-.
    exact Hnext.
Defined.

Lemma other_page_fixed_length_witness :
  exists all,
    OtherPage.try_block Stub.mathjs Stub.Math_pow Scenario.other_A
    = Return all
    /\ List.length all = 2%nat.
Proof.
  destruct (other_page_fixed_length Stub.mathjs Stub.Math_pow
              Scenario.other_A) as (all & Hrun & Hlen & _).
  - apply other_stub_succeeds_square. reflexivity.
  - exists all. split; [exact Hrun|exact Hlen].
Defined.

Lemma other_page_failure_aborts_witness :
  OtherPage.try_block Stub.mathjs Stub.Math_pow Scenario2.other_undefined
  = Throw (ErrorInstance "Undefined symbol y")
  /\ OtherPage.st_error
       (OtherPage.calculateNewtonRaphson Stub.mathjs Stub.Math_pow
          Scenario2.other_undefined)
     = "Error: Undefined symbol y".
Proof.
  destruct (other_page_failure_aborts Stub.mathjs Stub.Math_pow
              Scenario2.other_undefined 0 3
              (ErrorInstance "Undefined symbol y"))
    as (Hrun & _ & Herr & _).
  - vm_compute. lia.
  - reflexivity.
  - left. reflexivity.
  - split; [exact Hrun|exact Herr].
Defined.

Lemma other_page_not_finite_propagates_witness :
  List.map OtherPage.x
    (OtherPage.results
       (OtherPage.calculateNewtonRaphson Stub.mathjs Stub.Math_pow
          Scenario2.other_flat_start))
  = ["0.00"; "Infinity"; "NaN"]
  /\ exists r,
       nth_error
         (OtherPage.results
            (OtherPage.calculateNewtonRaphson Stub.mathjs Stub.Math_pow
               Scenario2.other_flat_start)) 2 = Some r
       /\ non_finite_text (OtherPage.x r)
       /\ non_finite_text (OtherPage.x_next r).
Proof.
  split; [vm_compute; reflexivity|].
  edestruct (other_page_not_finite_propagates Stub.mathjs Stub.Math_pow
               Scenario2.other_flat_start
               (OtherPage.results
                  (OtherPage.calculateNewtonRaphson Stub.mathjs Stub.Math_pow
                     Scenario2.other_flat_start))
               1 infinity) as [Hx Hnext].
  - vm_compute. reflexivity.
  - vm_compute. reflexivity.
  - vm_compute. reflexivity.
  - apply (Nat.le_succ_diag_r 1).
  - vm_compute. reflexivity.
  - eexists. split; [reflexivity|]. split; [exact Hx|exact Hnext].
Defined.

(** ** Rounding on the page *)

Section PageRounding.

Variable mathjs : MathJS.
Variable Math_pow : number -> number -> number.

Local Abbreviation f := (Page.f mathjs).
Local Abbreviation fPrime := (Page.fPrime mathjs).
Local Abbreviation fDoublePrime := (Page.fDoublePrime mathjs).
Local Abbreviation loop_vars := (Page.loop_vars mathjs Math_pow).
Local Abbreviation try_block := (Page.try_block mathjs Math_pow).
Local Abbreviation x0_entering := (Trace.x0_entering mathjs Math_pow).

(** C3. On the page, rounding to two decimals happens only where a record is
    filled.  For every record of a run that returned, with [x1] the update of
    the method on the full-precision values of the pass: the record shows
    [toFixed(2)] of [x1]; the iterate carried into the next pass is [x1]
    itself; the next pass evaluates [f] and [f'] at [x1], and its record
    shows those values and [x1] with two decimals.  And a state with the same
    configuration (equation, guess, count, method, true root) has the same
    full-precision iterate entering every pass, whatever else it holds. *)
Theorem carried_iterate_is_unrounded st all k r :
  try_block st = Return all ->
  nth_error all k = Some r ->
  exists x fx fpx fppx,
    x0_entering st k = Return x
    /\ f st x = Return fx /\ fPrime st x = Return fpx
    /\ fDoublePrime st x = Return fppx
    /\ Page.x_next r
       = toFixed (Spec.x_next Math_pow (Page.method st) x fx fpx fppx) 2
    /\ x0_entering st (S k)
       = Return (Spec.x_next Math_pow (Page.method st) x fx fpx fppx)
    /\ (forall r', nth_error all (S k) = Some r' ->
          exists fx' fpx',
            f st (Spec.x_next Math_pow (Page.method st) x fx fpx fppx)
            = Return fx'
            /\ fPrime st (Spec.x_next Math_pow (Page.method st) x fx fpx fppx)
               = Return fpx'
            /\ Page.x r'
               = toFixed (Spec.x_next Math_pow (Page.method st)
                            x fx fpx fppx) 2
            /\ Page.fx r' = toFixed fx' 2
            /\ Page.fpx r' = toFixed fpx' 2)
    /\ forall st',
         Page.equation st' = Page.equation st ->
         Page.initialGuess st' = Page.initialGuess st ->
         Page.iterations st' = Page.iterations st ->
         Page.method st' = Page.method st ->
         Page.trueRoot st' = Page.trueRoot st ->
         forall j, x0_entering st' j = x0_entering st j.
Proof.
  intros Hrun Hr. destruct (try_block_returns _ _ st all Hrun) as [xn Hn].
  destruct (record_of_pass _ _ st _ xn all k r Hn Hr)
    as (x & fx & fpx & fppx & _ & Hx & Hf & Hf' & Hf'' & Hnext & ->).
  exists x, fx, fpx, fppx.
  split; [assumption|]. split; [assumption|]. split; [assumption|].
  split; [assumption|]. split; [reflexivity|]. split; [exact Hnext|].
  split.
  - intros r' Hr'.
    destruct (record_of_pass _ _ st _ xn all (S k) r' Hn Hr')
      as (y & fy & fpy & fppy & _ & Hy & Hg & Hg' & _ & _ & ->).
    rewrite Hnext in Hy. injection Hy as <-.
    exists fy, fpy. split; [exact Hg|]. split; [exact Hg'|].
    split; [reflexivity|]. split; reflexivity.
  - intros st' Heq Hguess _ Hm Hroot j. unfold Trace.x0_entering.
    now rewrite (loop_vars_same_fields mathjs Math_pow st' st).
Qed.

End PageRounding.

(** Scenario A: the first record shows 2.17, the second pass starts from
    [3 - 5/6], which is not the number that text parses to, and shows
    [f(x) = 0.69]. *)
Lemma carried_iterate_is_unrounded_witness :
  Trace.x0_entering Stub.mathjs Stub.Math_pow Scenario.A 1
  = Return (3 - 5 / 6)
  /\ PrimFloat.eqb (3 - 5 / 6) (parseFloat "2.17") = false
  /\ exists r r',
       nth_error (Page.results Scenario.after_A) 0 = Some r
       /\ nth_error (Page.results Scenario.after_A) 1 = Some r'
       /\ Page.x_next r = "2.17"
       /\ Page.x r' = toFixed (3 - 5 / 6) 2
       /\ Page.fx r' = "0.69".
Proof.
  edestruct (carried_iterate_is_unrounded Stub.mathjs Stub.Math_pow
               Scenario.A (Page.results Scenario.after_A) 0)
    as (x & fx & fpx & fppx & Hx & Hf & Hf' & _ & _ & Hnext & Hrec & _).
  - vm_compute. reflexivity.
  - vm_compute. reflexivity.
  - vm_compute in Hx. injection Hx as <-.
    vm_compute in Hf. injection Hf as <-.
    vm_compute in Hf'. injection Hf' as <-.
    split; [rewrite Hnext; vm_compute; reflexivity|].
    split; [vm_compute; reflexivity|].
    eexists _, _. split; [reflexivity|]. split; [vm_compute; reflexivity|].
    split; [reflexivity|].
    edestruct Hrec as (fx' & fpx' & _ & _ & Hshown & _ & _).
    { vm_compute. reflexivity. }
    split; [|vm_compute; reflexivity].
    rewrite Hshown. vm_compute. reflexivity.
Defined.
